(** * githubmcp: a shallow embedding of the GitHub gateway

    The gateway of [githubmcp.py] resolves a credential, builds one or two
    requests for the upstream API, sends them through a single function
    ([gh_request]) and hands the outcome back.  This development embeds the
    credential resolver, the upstream caller and the endpoint handlers, and
    proves the properties its specification states about them.

    Conventions of the embedding:
    - a Python [str] is a [string]; every character is one code point below
      256, which is what a header value decoded by the framework consists of;
    - a value returned by [resp.json()] is a [json];
    - a Python [dict] is an association list in insertion order;
    - a function that may raise returns a [result];
    - a function that talks to the upstream API is a computation over a
      [World], which records every call and supplies the responses. *)

From Stdlib Require Import ZArith List String Ascii Bool Lia.
From Stdlib Require Import DecimalString.
From Stdlib Require DecimalZ DecimalPos.
From Stdlib Require Import Floats.PrimFloat.
Import ListNotations.

Local Open Scope string_scope.
Local Open Scope Z_scope.

(** ** Python values *)

Module Py.

#[local] Set Warnings "-register-all".

(** What [json.loads] can produce, and what [requests] serialises. *)
Inductive json : Type :=
| JNull : json
| JBool : bool -> json
| JInt : Z -> json
| JFloat : float -> json
| JStr : string -> json
| JList : list json -> json
| JDict : list (string * json) -> json.

Definition dict : Type := list (string * json).

(** [d.get(key)] on a dict, before the default is applied. *)
Fixpoint lookup {A : Type} (d : list (string * A)) (key : string) : option A :=
  match d with
  | [] => None
  | (k, v) :: rest => if String.eqb k key then Some v else lookup rest key
  end.

(** Truth value of an object, as [if x:] and [not x] test it. *)
Definition truthy (j : json) : bool :=
  match j with
  | JNull => false
  | JBool b => b
  | JInt n => negb (n =? 0)
  | JFloat f => negb (PrimFloat.eqb f PrimFloat.zero)
  | JStr s => negb (String.eqb s "")
  | JList l => match l with [] => false | _ :: _ => true end
  | JDict d => match d with [] => false | _ :: _ => true end
  end.

Definition truthy_str (s : string) : bool := negb (String.eqb s "").

(** An [Optional[str]] as a JSON value. *)
Definition of_opt_str (o : option string) : json :=
  match o with
  | None => JNull
  | Some s => JStr s
  end.

Definition of_opt_bool (o : option bool) : json :=
  match o with
  | None => JNull
  | Some b => JBool b
  end.

(** [str.isspace] on the code points below 256: the characters on which
    [str.split()] cuts. *)
Definition isspace (c : ascii) : bool :=
  let n := N.of_nat (nat_of_ascii c) in
  (((9 <=? n) && (n <=? 13)) || ((28 <=? n) && (n <=? 32))
   || (n =? 133) || (n =? 160))%N.

(** [str.lower] on one code point below 256. *)
Definition lower_char (c : ascii) : ascii :=
  let n := N.of_nat (nat_of_ascii c) in
  if (((65 <=? n) && (n <=? 90))
      || ((192 <=? n) && (n <=? 222) && negb (n =? 215)))%N
  then ascii_of_N (n + 32)
  else c.

Fixpoint lower (s : string) : string :=
  match s with
  | EmptyString => EmptyString
  | String c rest => String (lower_char c) (lower rest)
  end.

(** [str.split()] with no argument: the maximal runs of characters that
    are not white space.  [cur] is the run being read. *)
Fixpoint split_from (cur : string) (s : string) : list string :=
  match s with
  | EmptyString => if String.eqb cur "" then [] else [cur]
  | String c rest =>
      if isspace c
      then (if String.eqb cur "" then split_from "" rest
            else cur :: split_from "" rest)
      else split_from (cur ++ String c "") rest
  end.

Definition split (s : string) : list string := split_from "" s.

(** No character of [s] is white space: [s] is at most one token. *)
Fixpoint no_space (s : string) : bool :=
  match s with
  | EmptyString => true
  | String c rest => negb (isspace c) && no_space rest
  end.

(** [s] between double quotes, for writing the text of a JSON body. *)
Definition quoted (s : string) : string :=
  String (ascii_of_N 34) (s ++ String (ascii_of_N 34) "").

(** What [json.dumps(j, allow_nan=False)] accepts, the encoding [requests]
    applies to a [json=] argument: every float inside [j] is finite. *)
Fixpoint serialisable (j : json) : bool :=
  match j with
  | JFloat f => PrimFloat.is_finite f
  | JList l => forallb serialisable l
  | JDict d => forallb (fun kv => serialisable (snd kv)) d
  | _ => true
  end.

(** No character of [s] is a carriage return or a line feed. *)
Fixpoint no_line_break (s : string) : bool :=
  match s with
  | EmptyString => true
  | String c rest =>
      negb (Ascii.eqb c (ascii_of_N 13)) && negb (Ascii.eqb c (ascii_of_N 10))
      && no_line_break rest
  end.

(** A header value the HTTP client lets through: empty, or starting with a
    character that is not white space and holding no line break. *)
Definition header_value_ok (v : string) : bool :=
  match v with
  | EmptyString => true
  | String c rest => negb (isspace c) && no_line_break rest
  end.

(** [str(n)] for an [int], as an f-string formats it. *)
Definition str_of_int (n : Z) : string := NilZero.string_of_int (Z.to_int n).

(** [f"{x}"] for an [Optional[str]]. *)
Definition format_opt_str (o : option string) : string :=
  match o with
  | None => "None"
  | Some s => s
  end.

End Py.
Import Py.

(** ** Exceptions and results *)

(** The exceptions the embedded code raises or lets through.
    [HTTPException] is the exception object once built; [ValueError] is what
    its constructor raises for a status code without a phrase.
    [InvalidHeader] and [InvalidJSONError] are the refusals of the HTTP
    client before anything is sent: of a header value (by [requests]' own
    check or, for a line feed that check lets through at the very end, by
    [http.client]; the model keeps one constructor for both), and of a
    [json=] argument that cannot be encoded. *)
Inductive exn : Type :=
| HTTPException (status_code : Z) (detail : json)
| AttributeError (what : string)
| ConnectionError
| ValueError
| InvalidHeader
| InvalidJSONError.

Inductive result (A : Type) : Type :=
| Return : A -> result A
| Raise : exn -> result A.

Arguments Return {A} _.
Arguments Raise {A} _.

(** ** Credential resolution *)

(** The process environment, [os.environ]. *)
Definition environ : Type := list (string * string).

Definition NO_TOKEN_DETAIL : string :=
  "GitHub token not provided via Authorization header or GITHUB_TOKEN env var".

(** [get_token]: the [Authorization] header is [None] when the request
    carries none. *)
Definition get_token (authorization : option string) (env : environ)
  : result string :=
  let from_environment :=
    match lookup env "GITHUB_TOKEN" with
    | Some token =>
        if truthy_str token then Return token
        else Raise (HTTPException 401 (JStr NO_TOKEN_DETAIL))
    | None => Raise (HTTPException 401 (JStr NO_TOKEN_DETAIL))
    end in
  match authorization with
  | Some a =>
      if truthy_str a then
        match split a with
        | [p0; p1] => if String.eqb (lower p0) "bearer" then Return p1
                      else Return a
        | _ => Return a
        end
      else from_environment
  | None => from_environment
  end.

(** ** The upstream API as seen through [requests] *)

(** One call of [requests.request]. *)
Record Call : Type := mkCall {
  c_method : string;
  c_url : string;
  c_headers : list (string * string);
  c_json : option json;
  c_params : option (list (string * string))
}.

(** What the code reads of a response: [resp.status_code], [resp.text] and
    the outcome of [resp.json()], which is [None] when the body is not JSON
    and the method raises. *)
Record Response : Type := mkResponse {
  status_code : Z;
  text : string;
  json_body : option json
}.

(** The world a request is served in: the interpreter's table of status
    phrases, [http.HTTPStatus(code).phrase], which is [None] where
    [HTTPStatus(code)] raises [ValueError], and never changes; what was
    printed; the calls of [requests.request] made so far, oldest first; and
    the responses the upstream API will give to the next requests that reach
    it.  When no response is left the transport fails. *)
Record World : Type := mkWorld {
  http_phrase : Z -> option string;
  stdout : list string;
  calls : list Call;
  inbox : list Response
}.

(** State that survives an exception, as in Python. *)
Definition M (A : Type) : Type := World -> result A * World.

Definition ret {A : Type} (a : A) : M A := fun w => (Return a, w).

Definition raise {A : Type} (e : exn) : M A := fun w => (Raise e, w).

Definition bind {A B : Type} (m : M A) (k : A -> M B) : M B :=
  fun w =>
    match m w with
    | (Return a, w') => k a w'
    | (Raise e, w') => (Raise e, w')
    end.

Definition lift {A : Type} (r : result A) : M A := fun w => (r, w).

Declare Scope py_scope.
Delimit Scope py_scope with py.
Notation "x <- m ;; k" := (bind m (fun x => k))
  (at level 61, m at next level, right associativity) : py_scope.
Notation "m ;; k" := (bind m (fun _ => k))
  (at level 61, right associativity) : py_scope.
Local Open Scope py_scope.

Definition print (s : string) : M unit :=
  fun w => (Return tt,
            mkWorld (http_phrase w) (stdout w ++ [s]) (calls w) (inbox w)).

(** Reading the interpreter's table. *)
Definition HTTPStatus_phrase : M (Z -> option string) :=
  fun w => (Return (http_phrase w), w).

(** What the HTTP client refuses before it sends anything: a header value
    it does not let through, then a [json=] argument it cannot encode. *)
Definition refused (c : Call) : option exn :=
  if negb (forallb (fun h => header_value_ok (snd h)) (c_headers c))
  then Some InvalidHeader
  else match c_json c with
       | Some j => if serialisable j then None else Some InvalidJSONError
       | None => None
       end.

(** [requests.request(method, url, headers=, json=, params=)]. *)
Definition requests_request (method url : string)
    (headers : list (string * string)) (body : option json)
    (params : option (list (string * string))) : M Response :=
  fun w =>
    let c := mkCall method url headers body params in
    let called rest := mkWorld (http_phrase w) (stdout w) (calls w ++ [c]) rest in
    match refused c with
    | Some e => (Raise e, called (inbox w))
    | None =>
        match inbox w with
        | [] => (Raise ConnectionError, called [])
        | r :: rest => (Return r, called rest)
        end
    end.

Definition GITHUB_API_BASE : string := "https://api.github.com".

(** [raise HTTPException(status_code=status, detail=detail)]: the
    constructor puts the phrase of the status code in the place of a detail
    that is [None], and raises [ValueError] when the code has no phrase. *)
Definition raise_HTTPException {A : Type} (phrase : Z -> option string)
    (status : Z) (detail : json) : result A :=
  match detail with
  | JNull =>
      match phrase status with
      | Some p => Raise (HTTPException status (JStr p))
      | None => Raise ValueError
      end
  | _ => Raise (HTTPException status detail)
  end.

(** The part of [gh_request] after the response has arrived. *)
Definition gh_response (phrase : Z -> option string) (resp : Response)
  : result json :=
  if 400 <=? status_code resp then
    let detail :=
      match json_body resp with
      | Some j => j
      | None => JDict [("message", JStr (text resp))]
      end in
    raise_HTTPException phrase (status_code resp) detail
  else
    match json_body resp with
    | Some j => Return j
    | None => Return (JDict [("status", JStr "ok")])
    end.

Definition gh_headers (token : string) : list (string * string) :=
  [("Authorization", "Bearer " ++ token);
   ("Accept", "application/vnd.github.v3+json")].

Definition gh_request (method path token : string) (body : option json)
    (params : option (list (string * string))) : M json :=
  print token ;;
  let url := GITHUB_API_BASE ++ path in
  let headers := gh_headers token in
  resp <- requests_request method url headers body params ;;
  phrase <- HTTPStatus_phrase ;;
  lift (gh_response phrase resp).

(** The call [gh_request] sends. *)
Definition gh_call (method path token : string) (body : option json)
    (params : option (list (string * string))) : Call :=
  mkCall method (GITHUB_API_BASE ++ path) (gh_headers token) body params.

(** The world after [gh_request] has made the call [c] with the token
    [token]: the token was printed, the call is on record, and one response
    is used up unless the call was refused. *)
Definition after_call (w : World) (token : string) (c : Call) : World :=
  mkWorld (http_phrase w) (stdout w ++ [token]) (calls w ++ [c])
    match refused c with
    | Some _ => inbox w
    | None => tl (inbox w)
    end.

(** ** Request bodies *)

Record CreateBranchPayload : Type := mkCreateBranchPayload {
  new_branch : string;
  base_branch : option string
}.

Record CreatePrPayload : Type := mkCreatePrPayload {
  pr_head : string;
  pr_base : string;
  pr_title : string;
  pr_body : option string;
  pr_draft : option bool
}.

Record ReviewPrPayload : Type := mkReviewPrPayload {
  review_body : option string;
  review_event : option string
}.

Record MergePrPayload : Type := mkMergePrPayload {
  commit_title : option string;
  commit_message : option string;
  merge_method : option string
}.

(** Reading a field declared [Optional[str] = default] from the JSON object
    of a request: a missing key takes the default, [null] and strings are
    taken as they are, anything else is left to the framework's validation
    and gives no payload. *)
Definition field_opt_str (d : dict) (key : string) (default : option string)
  : option (option string) :=
  match lookup d key with
  | None => Some default
  | Some JNull => Some None
  | Some (JStr s) => Some (Some s)
  | Some _ => None
  end.

(** The model class [MergePrPayload] applied to a request body. *)
Definition MergePrPayload_of_json (j : json) : option MergePrPayload :=
  match j with
  | JDict d =>
      match field_opt_str d "commit_title" None,
            field_opt_str d "commit_message" None,
            field_opt_str d "merge_method" (Some "merge") with
      | Some t, Some m, Some mm => Some (mkMergePrPayload t m mm)
      | _, _, _ => None
      end
  | _ => None
  end.

(** ** Endpoint handlers *)

(** [x.get(key, default)]: only a dict has the method. *)
Definition py_get (x : json) (key : string) (default : json) : result json :=
  match x with
  | JDict d =>
      match lookup d key with
      | Some v => Return v
      | None => Return default
      end
  | _ => Raise (AttributeError "get")
  end.

Definition SHA_DETAIL : string := "Could not resolve base branch SHA".

Definition list_branches (owner repo token : string) : M json :=
  let path := "/repos/" ++ owner ++ "/" ++ repo ++ "/branches" in
  gh_request "GET" path token None None.

Definition create_branch (owner repo : string) (payload : CreateBranchPayload)
    (token : string) : M json :=
  let base_path := "/repos/" ++ owner ++ "/" ++ repo ++ "/git/ref/heads/"
                   ++ format_opt_str (base_branch payload) in
  base_ref <- gh_request "GET" base_path token None None ;;
  obj <- lift (py_get base_ref "object" (JDict [])) ;;
  base_sha <- lift (py_get obj "sha" JNull) ;;
  if negb (truthy base_sha) then
    raise (HTTPException 500 (JStr SHA_DETAIL))
  else
    let ref_path := "/repos/" ++ owner ++ "/" ++ repo ++ "/git/refs" in
    let new_ref := JDict [("ref", JStr ("refs/heads/" ++ new_branch payload));
                          ("sha", base_sha)] in
    gh_request "POST" ref_path token (Some new_ref) None.

Definition list_prs (owner repo state token : string) : M json :=
  let path := "/repos/" ++ owner ++ "/" ++ repo ++ "/pulls" in
  gh_request "GET" path token None (Some [("state", state)]).

Definition create_pr (owner repo : string) (payload : CreatePrPayload)
    (token : string) : M json :=
  let path := "/repos/" ++ owner ++ "/" ++ repo ++ "/pulls" in
  let body := JDict [("title", JStr (pr_title payload));
                     ("head", JStr (pr_head payload));
                     ("base", JStr (pr_base payload));
                     ("body", of_opt_str (pr_body payload));
                     ("draft", of_opt_bool (pr_draft payload))] in
  gh_request "POST" path token (Some body) None.

Definition get_pr (owner repo : string) (pr_number : Z) (token : string)
  : M json :=
  let path := "/repos/" ++ owner ++ "/" ++ repo ++ "/pulls/"
              ++ str_of_int pr_number in
  gh_request "GET" path token None None.

Definition review_pr (owner repo : string) (pr_number : Z)
    (payload : ReviewPrPayload) (token : string) : M json :=
  let path := "/repos/" ++ owner ++ "/" ++ repo ++ "/pulls/"
              ++ str_of_int pr_number ++ "/reviews" in
  let text_or_empty :=
    match review_body payload with
    | Some s => if truthy_str s then s else ""
    | None => ""
    end in
  let body := JDict [("body", JStr text_or_empty);
                     ("event", of_opt_str (review_event payload))] in
  gh_request "POST" path token (Some body) None.

Definition merge_pr (owner repo : string) (pr_number : Z)
    (payload : MergePrPayload) (token : string) : M json :=
  let path := "/repos/" ++ owner ++ "/" ++ repo ++ "/pulls/"
              ++ str_of_int pr_number ++ "/merge" in
  let body := JDict [("commit_title", of_opt_str (commit_title payload));
                     ("commit_message", of_opt_str (commit_message payload));
                     ("merge_method", of_opt_str (merge_method payload))] in
  gh_request "PUT" path token (Some body) None.

(** [ref] is [None] when the query string has no [ref]. *)
Definition get_contents (owner repo path : string) (ref : option string)
    (token : string) : M json :=
  let api_path := "/repos/" ++ owner ++ "/" ++ repo ++ "/contents/" ++ path in
  let params :=
    match ref with
    | Some r => if truthy_str r then Some [("ref", r)] else None
    | None => None
    end in
  gh_request "GET" api_path token None params.

(** ** Vocabulary of the statements *)

(** The first call of branch creation:
    GET /repos/{owner}/{repo}/git/ref/heads/{base_branch}. *)
Definition get_ref_call (owner repo : string) (payload : CreateBranchPayload)
    (token : string) : Call :=
  gh_call "GET"
    ("/repos/" ++ owner ++ "/" ++ repo ++ "/git/ref/heads/"
     ++ format_opt_str (base_branch payload))
    token None None.

(** The second call of branch creation: POST /repos/{owner}/{repo}/git/refs
    with the body {ref: "refs/heads/<new_branch>", sha: S}. *)
Definition post_ref_call (owner repo : string) (payload : CreateBranchPayload)
    (token : string) (S : json) : Call :=
  gh_call "POST"
    ("/repos/" ++ owner ++ "/" ++ repo ++ "/git/refs")
    token
    (Some (JDict [("ref", JStr ("refs/heads/" ++ new_branch payload));
                  ("sha", S)]))
    None.

(** The body of a response contains [object.sha = S]. *)
Definition object_sha (body : option json) (S : json) : Prop :=
  exists d o,
    body = Some (JDict d)
    /\ lookup d "object" = Some (JDict o)
    /\ lookup o "sha" = Some S.

(** The body of a response has no [object.sha]: it is not JSON, or it is a
    JSON object without [object], or one whose [object] is a JSON object
    without [sha]. *)
Definition lacks_object_sha (body : option json) : Prop :=
  body = None
  \/ exists d,
       body = Some (JDict d)
       /\ (lookup d "object" = None
           \/ exists o, lookup d "object" = Some (JDict o)
                        /\ lookup o "sha" = None).

(** The error of branch creation when no SHA was resolved. *)
Definition sha_unresolved : exn :=
  HTTPException 500 (JStr "Could not resolve base branch SHA").

(** ** Routes and request bodies as the framework hands them over *)

(** A route whose handler declares [token: str = Depends(get_token)]: the
    credential is resolved first, and the handler runs with it only when
    [get_token] returned. *)
Definition with_token (authorization : option string) (env : environ)
    (handler : string -> M json) : M json :=
  token <- lift (get_token authorization env) ;;
  handler token.

(** Reading a field declared [str], with no default, from the JSON object of
    a request: a string is taken as it is; a missing key, and whatever the
    framework's validation decides for other values, give no payload. *)
Definition field_str (d : dict) (key : string) : option string :=
  match lookup d key with
  | Some (JStr s) => Some s
  | _ => None
  end.

(** The model class [CreateBranchPayload] applied to a request body. *)
Definition CreateBranchPayload_of_json (j : json) : option CreateBranchPayload :=
  match j with
  | JDict d =>
      match field_str d "new_branch",
            field_opt_str d "base_branch" (Some "main") with
      | Some nb, Some bb => Some (mkCreateBranchPayload nb bb)
      | _, _ => None
      end
  | _ => None
  end.




(** The model class [ReviewPrPayload] applied to a request body. *)
Definition ReviewPrPayload_of_json (j : json) : option ReviewPrPayload :=
  match j with
  | JDict d =>
      match field_opt_str d "body" None,
            field_opt_str d "event" (Some "COMMENT") with
      | Some b, Some e => Some (mkReviewPrPayload b e)
      | _, _ => None
      end
  | _ => None
  end.

(** ** More vocabulary of the statements *)

(** Every character of [s] is white space. *)
Fixpoint all_space (s : string) : bool :=
  match s with
  | EmptyString => true
  | String c rest => isspace c && all_space rest
  end.

(** [x] is a token: not empty and free of white space. *)
Definition is_token (x : string) : Prop := x <> "" /\ no_space x = true.

(** [isinstance(j, dict)]. *)
Definition is_dict (j : json) : bool :=
  match j with
  | JDict _ => true
  | _ => false
  end.

(** The outcome [gh_request] reads off the head of the inbox, when the
    request is sent. *)
Definition upstream_outcome (w : World) : result json :=
  match inbox w with
  | [] => Raise ConnectionError
  | r :: _ => gh_response (http_phrase w) r
  end.

(** The outcome of [gh_request] for the call [c]: the refusal of the HTTP
    client, or what the upstream API answers. *)
Definition call_outcome (w : World) (c : Call) : result json :=
  match refused c with
  | Some e => Raise e
  | None => upstream_outcome w
  end.

(** The status codes and phrases of [http.HTTPStatus] in CPython 3.11. *)
Definition HTTPStatus_3_11 : list (Z * string) :=
  [(100, "Continue");
   (101, "Switching Protocols");
   (102, "Processing");
   (103, "Early Hints");
   (200, "OK");
   (201, "Created");
   (202, "Accepted");
   (203, "Non-Authoritative Information");
   (204, "No Content");
   (205, "Reset Content");
   (206, "Partial Content");
   (207, "Multi-Status");
   (208, "Already Reported");
   (226, "IM Used");
   (300, "Multiple Choices");
   (301, "Moved Permanently");
   (302, "Found");
   (303, "See Other");
   (304, "Not Modified");
   (305, "Use Proxy");
   (307, "Temporary Redirect");
   (308, "Permanent Redirect");
   (400, "Bad Request");
   (401, "Unauthorized");
   (402, "Payment Required");
   (403, "Forbidden");
   (404, "Not Found");
   (405, "Method Not Allowed");
   (406, "Not Acceptable");
   (407, "Proxy Authentication Required");
   (408, "Request Timeout");
   (409, "Conflict");
   (410, "Gone");
   (411, "Length Required");
   (412, "Precondition Failed");
   (413, "Request Entity Too Large");
   (414, "Request-URI Too Long");
   (415, "Unsupported Media Type");
   (416, "Requested Range Not Satisfiable");
   (417, "Expectation Failed");
   (418, "I'm a Teapot");
   (421, "Misdirected Request");
   (422, "Unprocessable Entity");
   (423, "Locked");
   (424, "Failed Dependency");
   (425, "Too Early");
   (426, "Upgrade Required");
   (428, "Precondition Required");
   (429, "Too Many Requests");
   (431, "Request Header Fields Too Large");
   (451, "Unavailable For Legal Reasons");
   (500, "Internal Server Error");
   (501, "Not Implemented");
   (502, "Bad Gateway");
   (503, "Service Unavailable");
   (504, "Gateway Timeout");
   (505, "HTTP Version Not Supported");
   (506, "Variant Also Negotiates");
   (507, "Insufficient Storage");
   (508, "Loop Detected");
   (510, "Not Extended");
   (511, "Network Authentication Required")].

Fixpoint phrase_in (table : list (Z * string)) (status : Z) : option string :=
  match table with
  | [] => None
  | (code, phrase) :: rest =>
      if code =? status then Some phrase else phrase_in rest status
  end.

(** The table of the worlds of the examples. *)
Definition phrases_3_11 (status : Z) : option string :=
  phrase_in HTTPStatus_3_11 status.

(** The path of a pull request, /repos/{owner}/{repo}/pulls/{pr_number}. *)
Definition pull_path (owner repo : string) (pr_number : Z) : string :=
  "/repos/" ++ owner ++ "/" ++ repo ++ "/pulls/" ++ str_of_int pr_number.

(** * Properties *)

Example split_bearer : split "Bearer  abc" = ["Bearer"; "abc"].
Proof. reflexivity. Qed.

Example get_token_bearer :
  get_token (Some "bEArer ghp_1") [] = Return "ghp_1".
Proof. reflexivity. Qed.

Example str_of_int_neg : str_of_int (-42) = "-42".
Proof. reflexivity. Qed.

(** A header of blanks only is not empty, has no token, and is returned as
    it is; so is a header of three tokens. *)
Example get_token_blank_header : get_token (Some "   ") [] = Return "   ".
Proof. reflexivity. Qed.

Example get_token_three_tokens :
  get_token (Some "Bearer abc def") [] = Return "Bearer abc def".
Proof. reflexivity. Qed.

(** An empty header falls back to the environment. *)
Example get_token_empty_header :
  get_token (Some "") [("GITHUB_TOKEN", "ghp_env")] = Return "ghp_env".
Proof. reflexivity. Qed.

(** ** Splitting a header value *)

Lemma append_assoc (a b c : string) : ((a ++ b) ++ c = a ++ (b ++ c))%string.
Proof.
  induction a as [|x a IH]; simpl; [reflexivity | now rewrite IH].
Qed.

Lemma append_empty_r (a : string) : (a ++ "" = a)%string.
Proof.
  induction a as [|x a IH]; simpl; [reflexivity | now rewrite IH].
Qed.

Lemma append_eq_empty (a b : string) : (a ++ b = "")%string -> a = "" /\ b = "".
Proof.
  destruct a; simpl; [tauto | discriminate].
Qed.

(** A run without white space is read into the current token whole. *)
Lemma split_from_run (x cur rest : string) :
  no_space x = true ->
  split_from cur (x ++ rest) = split_from (cur ++ x) rest.
Proof.
  revert cur.
  induction x as [|c x IH]; intros cur Hx; simpl in *.
  - now rewrite append_empty_r.
  - apply andb_prop in Hx. destruct Hx as [Hc Hx].
    apply negb_true_iff in Hc. rewrite Hc.
    rewrite (IH _ Hx), append_assoc. reflexivity.
Qed.

Lemma split_from_end (cur : string) :
  cur <> "" -> split_from cur "" = [cur].
Proof.
  intros Hcur. simpl.
  destruct (String.eqb_spec cur ""); [contradiction | reflexivity].
Qed.

(** A single token is split into itself. *)
Lemma split_single (x : string) :
  x <> "" -> no_space x = true -> split x = [x].
Proof.
  intros Hne Hx. unfold split.
  rewrite <- (append_empty_r x) at 1.
  rewrite (split_from_run x "" "" Hx). simpl append.
  now apply split_from_end.
Qed.

(** A scheme word, one blank and a token are split in two. *)
Lemma split_scheme_token (scheme x : string) :
  scheme <> "" -> no_space scheme = true ->
  x <> "" -> no_space x = true ->
  split (scheme ++ " " ++ x) = [scheme; x].
Proof.
  intros Hs1 Hs2 Hx1 Hx2. unfold split.
  rewrite (split_from_run scheme "" _ Hs2). simpl append.
  cbn [split_from isspace].
  replace (isspace " ") with true by reflexivity.
  destruct (String.eqb_spec scheme ""); [contradiction |].
  f_equal.
  rewrite <- (append_empty_r x) at 1.
  rewrite (split_from_run x "" "" Hx2). simpl append.
  now apply split_from_end.
Qed.

Lemma split_nonempty (a : string) : split a <> [] -> a <> "".
Proof.
  intros H ->. now apply H.
Qed.

Lemma truthy_str_true (s : string) : s <> "" <-> truthy_str s = true.
Proof.
  unfold truthy_str.
  destruct (String.eqb_spec s ""); simpl; split; congruence.
Qed.

(** ** Credential resolution *)

Lemma get_token_two_parts (a p0 p1 : string) (env : environ) :
  split a = [p0; p1] ->
  get_token (Some a) env
  = Return (if String.eqb (lower p0) "bearer" then p1 else a).
Proof.
  intros Hsplit. unfold get_token.
  assert (Ha : a <> "") by (apply split_nonempty; rewrite Hsplit; discriminate).
  apply truthy_str_true in Ha. rewrite Ha, Hsplit.
  now destruct (String.eqb (lower p0) "bearer").
Qed.

Lemma get_token_verbatim (a : string) (env : environ) :
  a <> "" ->
  (forall p0 p1, split a = [p0; p1] -> lower p0 <> lower "Bearer") ->
  get_token (Some a) env = Return a.
Proof.
  intros Ha Hother. unfold get_token.
  apply truthy_str_true in Ha. rewrite Ha.
  destruct (split a) as [|p0 [|p1 [|p2 ps]]] eqn:Hsplit; try reflexivity.
  specialize (Hother p0 p1 eq_refl).
  destruct (String.eqb_spec (lower p0) "bearer") as [E|_]; [| reflexivity].
  exfalso. apply Hother. exact E.
Qed.

Lemma get_token_environment (t : string) (env : environ) :
  lookup env "GITHUB_TOKEN" = Some t ->
  get_token None env
  = if truthy_str t then Return t
    else Raise (HTTPException 401 (JStr NO_TOKEN_DETAIL)).
Proof.
  intros Henv. unfold get_token. now rewrite Henv.
Qed.

(** C3, as the claim words its last part: with an environment in which
    [GITHUB_TOKEN] is set, to the empty string, and no header, resolution
    does not give the environment value: it fails with 401. *)
Lemma get_token_empty_environment_value :
  lookup [("GITHUB_TOKEN", "")] "GITHUB_TOKEN" = Some ""
  /\ get_token None [("GITHUB_TOKEN", "")]
     = Raise (HTTPException 401 (JStr NO_TOKEN_DETAIL)).
Proof.
  split; reflexivity.
Qed.

(** C3 (amended): a header value that [split] cuts into exactly two tokens,
    the first equal to "Bearer" when case is ignored, resolves to the second
    token; every other non-empty header value resolves to itself; with no
    header, the credential is the value of [GITHUB_TOKEN] when that is set to
    a non-empty string. *)
Theorem get_token_resolution :
  (forall a p0 p1 env,
      split a = [p0; p1] -> lower p0 = lower "Bearer" ->
      get_token (Some a) env = Return p1)
  /\ (forall a env,
      a <> "" ->
      (forall p0 p1, split a = [p0; p1] -> lower p0 <> lower "Bearer") ->
      get_token (Some a) env = Return a)
  /\ (forall t env,
      lookup env "GITHUB_TOKEN" = Some t -> t <> "" ->
      get_token None env = Return t).
Proof.
  split; [| split].
  - intros a p0 p1 env Hsplit Hlow.
    rewrite (get_token_two_parts a p0 p1 env Hsplit), Hlow. reflexivity.
  - intros a env. apply get_token_verbatim.
  - intros t env Henv Ht.
    rewrite (get_token_environment t env Henv).
    apply truthy_str_true in Ht. now rewrite Ht.
Qed.

Lemma get_token_resolution_witness :
  get_token (Some "bearer ghp_16C7e42F") [] = Return "ghp_16C7e42F"
  /\ get_token (Some "Token ghp_16C7e42F") [] = Return "Token ghp_16C7e42F"
  /\ get_token None [("HOME", "/root"); ("GITHUB_TOKEN", "ghp_env")]
     = Return "ghp_env".
Proof.
  destruct get_token_resolution as (Hbearer & Hraw & Henv).
  split; [| split].
  - apply (Hbearer "bearer ghp_16C7e42F" "bearer" "ghp_16C7e42F" []);
      reflexivity.
  - apply (Hraw "Token ghp_16C7e42F" []); [discriminate |].
    intros p0 p1 Hsplit. vm_compute in Hsplit.
    injection Hsplit as <- _. vm_compute. discriminate.
  - apply (Henv "ghp_env"); [reflexivity | discriminate].
Defined.

(** The two header shapes of the specification's properties. *)
Corollary get_token_bearer_header (x : string) (env : environ) :
  x <> "" -> no_space x = true ->
  get_token (Some ("Bearer " ++ x)) env = Return x.
Proof.
  intros Hx1 Hx2.
  rewrite (get_token_two_parts _ "Bearer" x env); [reflexivity |].
  apply (split_scheme_token "Bearer" x); [discriminate | reflexivity | assumption..].
Qed.

Corollary get_token_raw_header (x : string) (env : environ) :
  x <> "" -> no_space x = true ->
  get_token (Some x) env = Return x.
Proof.
  intros Hx1 Hx2. unfold get_token.
  pose proof (proj1 (truthy_str_true x) Hx1) as Ht. rewrite Ht.
  now rewrite (split_single x Hx1 Hx2).
Qed.

(** C4: with no [Authorization] header and no [GITHUB_TOKEN] in the
    environment, resolution raises an HTTP 401 whose detail is one fixed
    string. *)
Theorem get_token_unauthorized (env : environ) :
  lookup env "GITHUB_TOKEN" = None ->
  get_token None env
  = Raise (HTTPException 401
      (JStr "GitHub token not provided via Authorization header or GITHUB_TOKEN env var")).
Proof.
  intros Henv. unfold get_token. rewrite Henv. reflexivity.
Qed.

Lemma get_token_unauthorized_witness :
  get_token None [("HOME", "/root"); ("PATH", "/usr/bin")]
  = Raise (HTTPException 401
      (JStr "GitHub token not provided via Authorization header or GITHUB_TOKEN env var")).
Proof.
  apply (get_token_unauthorized [("HOME", "/root"); ("PATH", "/usr/bin")]).
  reflexivity.
Defined.

(** ** The upstream caller *)

(** What the HTTP client does with the calls of [gh_request]: the header
    built from the token passes when the token holds no line break, and a
    JSON body passes when it can be encoded. *)
Lemma refused_gh_call method path token body params :
  refused (gh_call method path token body params)
  = if no_line_break token
    then match body with
         | Some j => if serialisable j then None else Some InvalidJSONError
         | None => None
         end
    else Some InvalidHeader.
Proof.
  unfold refused, gh_call, gh_headers. cbn [c_headers c_json forallb snd].
  replace (header_value_ok ("Bearer " ++ token)) with (no_line_break token)
    by reflexivity.
  replace (header_value_ok "application/vnd.github.v3+json") with true
    by reflexivity.
  now destruct (no_line_break token).
Qed.

Lemma sent_without_body method path token params :
  no_line_break token = true ->
  refused (gh_call method path token None params) = None.
Proof.
  intros Htoken. now rewrite refused_gh_call, Htoken.
Qed.

Lemma sent_with_body method path token j params :
  no_line_break token = true -> serialisable j = true ->
  refused (gh_call method path token (Some j) params) = None.
Proof.
  intros Htoken Hj. now rewrite refused_gh_call, Htoken, Hj.
Qed.

(** A token without white space holds no line break. *)
Lemma no_space_no_line_break (x : string) :
  no_space x = true -> no_line_break x = true.
Proof.
  induction x as [|c x IH]; cbn [no_space no_line_break]; [reflexivity |].
  intros H. apply andb_prop in H. destruct H as [Hc Hx].
  rewrite (IH Hx), andb_true_r.
  destruct (Ascii.eqb_spec c (ascii_of_N 13)) as [-> | _];
    [vm_compute in Hc; discriminate |].
  destruct (Ascii.eqb_spec c (ascii_of_N 10)) as [-> | _];
    [vm_compute in Hc; discriminate |].
  reflexivity.
Qed.

(** [gh_request] prints the token and makes one call of [requests.request];
    its outcome is the refusal of the HTTP client, the transport's failure,
    or what [gh_response] reads off the response. *)
Lemma gh_request_run method path token body params (w : World) :
  gh_request method path token body params w
  = (call_outcome w (gh_call method path token body params),
     after_call w token (gh_call method path token body params)).
Proof.
  unfold gh_request, bind, print, requests_request, HTTPStatus_phrase, lift,
    after_call, call_outcome, upstream_outcome.
  fold (gh_call method path token body params). cbn.
  destruct (refused (gh_call method path token body params)); [reflexivity |].
  destruct (inbox w) as [|r rest]; reflexivity.
Qed.

Lemma gh_request_calls method path token body params (w : World) :
  calls (snd (gh_request method path token body params w))
  = (calls w ++ [gh_call method path token body params])%list.
Proof.
  rewrite gh_request_run. reflexivity.
Qed.

(** The outcome of a call that is sent and answered. *)
Lemma call_outcome_answered (w : World) (c : Call) r rest :
  refused c = None -> inbox w = r :: rest ->
  call_outcome w c = gh_response (http_phrase w) r.
Proof.
  intros Hc Hin. unfold call_outcome, upstream_outcome. now rewrite Hc, Hin.
Qed.

Lemma gh_response_success phrase (r : Response) :
  status_code r < 400 ->
  gh_response phrase r
  = Return match json_body r with
           | Some j => j
           | None => JDict [("status", JStr "ok")]
           end.
Proof.
  intros Hst. unfold gh_response.
  destruct (Z.leb_spec 400 (status_code r)); [lia |].
  now destruct (json_body r).
Qed.

Lemma gh_response_error phrase (r : Response) :
  400 <= status_code r ->
  exists e, gh_response phrase r = Raise e.
Proof.
  intros Hst. unfold gh_response, raise_HTTPException.
  destruct (Z.leb_spec 400 (status_code r)); [| lia].
  destruct (json_body r) as [[| b | n | f | s | l | d] |];
    try (eexists; reflexivity).
  destruct (phrase (status_code r)); eexists; reflexivity.
Qed.

(** The exception of an error response whose body is JSON and not [null],
    or is not JSON. *)
Lemma gh_response_error_detail phrase (r : Response) :
  400 <= status_code r ->
  (forall j, json_body r = Some j -> j <> JNull ->
     gh_response phrase r = Raise (HTTPException (status_code r) j))
  /\ (json_body r = None ->
      gh_response phrase r
      = Raise (HTTPException (status_code r)
                 (JDict [("message", JStr (text r))]))).
Proof.
  intros Hst. unfold gh_response, raise_HTTPException.
  destruct (Z.leb_spec 400 (status_code r)); [| lia].
  split.
  - intros j -> Hj. destruct j; try reflexivity. now contradiction Hj.
  - intros ->. reflexivity.
Qed.




(** C6: when a request is sent and the upstream response has a status below
    400, [gh_request] returns the JSON body when the body is JSON, and the
    object [{"status": "ok"}] when it is not; it does not raise. *)
Theorem gh_request_success
    method path token body params (w : World) (r : Response) rest :
  refused (gh_call method path token body params) = None ->
  inbox w = r :: rest ->
  status_code r < 400 ->
  fst (gh_request method path token body params w)
  = Return match json_body r with
           | Some j => j
           | None => JDict [("status", JStr "ok")]
           end.
Proof.
  intros Hsent Hin Hst. rewrite gh_request_run. simpl fst.
  rewrite (call_outcome_answered w _ r rest Hsent Hin).
  now apply gh_response_success.
Qed.

Lemma gh_request_success_witness :
  fst (gh_request "PUT" "/repos/acme/widget/pulls/7/merge" "t0k" None None
         (mkWorld phrases_3_11 [] [] [mkResponse 204 "" None]))
  = Return (JDict [("status", JStr "ok")]).
Proof.
  apply (gh_request_success "PUT" "/repos/acme/widget/pulls/7/merge" "t0k"
           None None (mkWorld phrases_3_11 [] [] [mkResponse 204 "" None])
           (mkResponse 204 "" None) [] eq_refl eq_refl).
  simpl. lia.
Defined.

(** ** Branch creation *)

(** What [create_branch] does, step by step: the first call is always made;
    the second is made only on the last branch. *)
Lemma create_branch_run owner repo payload token (w : World) :
  create_branch owner repo payload token w
  = let w1 := after_call w token (get_ref_call owner repo payload token) in
    match call_outcome w (get_ref_call owner repo payload token) with
    | Raise e => (Raise e, w1)
    | Return base_ref =>
        match py_get base_ref "object" (JDict []) with
        | Raise e => (Raise e, w1)
        | Return obj =>
            match py_get obj "sha" JNull with
            | Raise e => (Raise e, w1)
            | Return base_sha =>
                if negb (truthy base_sha)
                then (Raise (HTTPException 500 (JStr SHA_DETAIL)), w1)
                else gh_request "POST"
                       ("/repos/" ++ owner ++ "/" ++ repo ++ "/git/refs")
                       token
                       (Some (JDict [("ref", JStr ("refs/heads/"
                                                   ++ new_branch payload));
                                     ("sha", base_sha)]))
                       None w1
            end
        end
    end.
Proof.
  unfold create_branch. unfold bind at 1. rewrite gh_request_run.
  fold (get_ref_call owner repo payload token). cbv zeta.
  destruct (call_outcome w (get_ref_call owner repo payload token))
    as [base_ref | e]; [| reflexivity].
  unfold bind, lift, raise.
  destruct (py_get base_ref "object" (JDict [])) as [obj | e]; [| reflexivity].
  destruct (py_get obj "sha" JNull) as [base_sha | e]; [| reflexivity].
  now destruct (truthy base_sha).
Qed.

Lemma py_get_dict (d : dict) (key : string) (default : json) :
  py_get (JDict d) key default
  = Return match lookup d key with
           | Some v => v
           | None => default
           end.
Proof.
  unfold py_get. now destruct (lookup d key).
Qed.

(** One [.get] of the handler on a dict whose entry is known. *)
Ltac known_get H := rewrite py_get_dict, H; cbv beta iota.

Lemma sent_get_ref owner repo payload token :
  no_line_break token = true ->
  refused (get_ref_call owner repo payload token) = None.
Proof.
  apply sent_without_body.
Qed.

(** The first call of [create_branch], sent and answered with a success. *)
Lemma first_call_success owner repo payload token (w : World) r1 rest :
  no_line_break token = true ->
  inbox w = r1 :: rest ->
  status_code r1 < 400 ->
  call_outcome w (get_ref_call owner repo payload token)
  = Return match json_body r1 with
           | Some j => j
           | None => JDict [("status", JStr "ok")]
           end.
Proof.
  intros Htoken Hin Hst.
  rewrite (call_outcome_answered w _ r1 rest
             (sent_get_ref owner repo payload token Htoken) Hin).
  now apply gh_response_success.
Qed.

(** With a resolved SHA that is truthy, the handler goes on to the second
    call. *)
Lemma create_branch_truthy_sha owner repo payload token (w : World) r1 rest S :
  no_line_break token = true ->
  inbox w = r1 :: rest ->
  status_code r1 < 400 ->
  object_sha (json_body r1) S ->
  truthy S = true ->
  create_branch owner repo payload token w
  = gh_request "POST" ("/repos/" ++ owner ++ "/" ++ repo ++ "/git/refs") token
      (Some (JDict [("ref", JStr ("refs/heads/" ++ new_branch payload));
                    ("sha", S)]))
      None (after_call w token (get_ref_call owner repo payload token)).
Proof.
  intros Htoken Hin Hst (d & o & Hbody & Hobj & Hsha) HS.
  rewrite create_branch_run. cbv zeta.
  rewrite (first_call_success _ _ _ _ w r1 rest Htoken Hin Hst), Hbody.
  known_get Hobj. known_get Hsha. rewrite HS. reflexivity.
Qed.

(** With a resolved SHA that is falsy, the handler stops with its own 500. *)
Lemma create_branch_falsy_sha owner repo payload token (w : World) r1 rest S :
  no_line_break token = true ->
  inbox w = r1 :: rest ->
  status_code r1 < 400 ->
  object_sha (json_body r1) S ->
  truthy S = false ->
  create_branch owner repo payload token w
  = (Raise sha_unresolved,
     after_call w token (get_ref_call owner repo payload token)).
Proof.
  intros Htoken Hin Hst (d & o & Hbody & Hobj & Hsha) HS.
  rewrite create_branch_run. cbv zeta.
  rewrite (first_call_success _ _ _ _ w r1 rest Htoken Hin Hst), Hbody.
  known_get Hobj. known_get Hsha. rewrite HS. reflexivity.
Qed.

(** With no [object.sha] in a successful response, the handler stops with
    its own 500. *)
Lemma create_branch_lacking_sha owner repo payload token (w : World) r1 rest :
  no_line_break token = true ->
  inbox w = r1 :: rest ->
  status_code r1 < 400 ->
  lacks_object_sha (json_body r1) ->
  create_branch owner repo payload token w
  = (Raise sha_unresolved,
     after_call w token (get_ref_call owner repo payload token)).
Proof.
  intros Htoken Hin Hst Hlack.
  rewrite create_branch_run. cbv zeta.
  rewrite (first_call_success _ _ _ _ w r1 rest Htoken Hin Hst).
  destruct Hlack as [Hnone | (d & Hbody & [Hobj | (o & Hobj & Hsha)])].
  - rewrite Hnone. reflexivity.
  - rewrite Hbody. known_get Hobj. reflexivity.
  - rewrite Hbody. known_get Hobj. known_get Hsha. reflexivity.
Qed.

(** Either the handler made the first call only, or the first response was
    a success that carried a truthy [object.sha]. *)
Lemma create_branch_second_call_guard owner repo payload token (w : World) :
  calls (snd (create_branch owner repo payload token w))
  = (calls w ++ [get_ref_call owner repo payload token])%list
  \/ exists r1 rest S,
       inbox w = r1 :: rest
       /\ status_code r1 < 400
       /\ object_sha (json_body r1) S
       /\ truthy S = true
       /\ calls (snd (create_branch owner repo payload token w))
          = (calls w ++ [get_ref_call owner repo payload token;
                         post_ref_call owner repo payload token S])%list.
Proof.
  destruct (no_line_break token) eqn:Htoken.
  2:{ left. rewrite create_branch_run. cbv zeta. unfold call_outcome.
      unfold get_ref_call at 1. rewrite refused_gh_call, Htoken. reflexivity. }
  destruct (inbox w) as [|r1 rest] eqn:Hin.
  { left. rewrite create_branch_run. cbv zeta. unfold call_outcome.
    unfold get_ref_call at 1. rewrite refused_gh_call, Htoken.
    unfold upstream_outcome. rewrite Hin. reflexivity. }
  destruct (Z.leb_spec 400 (status_code r1)) as [Hst | Hst].
  { left. rewrite create_branch_run. cbv zeta.
    rewrite (call_outcome_answered w _ r1 rest
               (sent_get_ref owner repo payload token Htoken) Hin).
    destruct (gh_response_error (http_phrase w) r1 Hst) as (e & ->).
    reflexivity. }
  destruct (json_body r1) as [[| b | n | f | s | l | d] |] eqn:Hbody;
    try (left; rewrite create_branch_run; cbv zeta;
         rewrite (first_call_success _ _ _ _ w r1 rest Htoken Hin Hst), Hbody;
         reflexivity).
  destruct (lookup d "object") as [[| b | n | f | s | l | o] |] eqn:Hobj;
    try (left; rewrite create_branch_run; cbv zeta;
         rewrite (first_call_success _ _ _ _ w r1 rest Htoken Hin Hst), Hbody;
         known_get Hobj; reflexivity).
  destruct (lookup o "sha") as [S |] eqn:Hsha.
  - assert (HS : object_sha (json_body r1) S).
    { exists d, o. now rewrite Hbody. }
    destruct (truthy S) eqn:Htruthy.
    + right. exists r1, rest, S. repeat split; try assumption.
      rewrite (create_branch_truthy_sha _ _ _ _ w r1 rest S
                 Htoken Hin Hst HS Htruthy).
      rewrite gh_request_calls. unfold after_call. simpl calls.
      rewrite <- app_assoc. reflexivity.
    + left.
      rewrite (create_branch_falsy_sha _ _ _ _ w r1 rest S
                 Htoken Hin Hst HS Htruthy).
      reflexivity.
  - left. rewrite (create_branch_lacking_sha _ _ _ _ w r1 rest Htoken Hin Hst).
    + reflexivity.
    + right. exists d. split; [assumption |]. right. now exists o.
Qed.

(** C1, as the claim words it, fails at three first responses that contain
    [object.sha]: a successful one whose SHA is the empty string, a 404, and
    a successful one whose SHA is a float that is not finite.  In the first
    two the handler makes the first call only and raises; in the third the
    HTTP client refuses the second call, which cannot be encoded.  In all
    three the response prepared for a second call is left unused. *)
Lemma create_branch_sha_without_post :
  let payload := mkCreateBranchPayload "feature-x" (Some "main") in
  let body_of sha := JDict [("object", JDict [("sha", JStr sha)])] in
  let text_of sha :=
    "{" ++ quoted "object" ++ ":{" ++ quoted "sha" ++ ":" ++ quoted sha ++ "}}" in
  let empty_sha := mkResponse 200 (text_of "") (Some (body_of "")) in
  let denied := mkResponse 404 (text_of "abc123") (Some (body_of "abc123")) in
  let infinite :=
    mkResponse 200 ("{" ++ quoted "object" ++ ":{" ++ quoted "sha" ++ ":1e999}}")
      (Some (JDict [("object", JDict [("sha", JFloat infinity)])])) in
  let created := mkResponse 201 "{}" (Some (JDict [])) in
  let sent := mkWorld phrases_3_11 ["t0k"]
                [get_ref_call "acme" "widget" payload "t0k"] [created] in
  (object_sha (json_body empty_sha) (JStr "")
   /\ create_branch "acme" "widget" payload "t0k"
        (mkWorld phrases_3_11 [] [] [empty_sha; created])
      = (Raise sha_unresolved, sent))
  /\ (object_sha (json_body denied) (JStr "abc123")
      /\ create_branch "acme" "widget" payload "t0k"
           (mkWorld phrases_3_11 [] [] [denied; created])
         = (Raise (HTTPException 404 (body_of "abc123")), sent))
  /\ (object_sha (json_body infinite) (JFloat infinity)
      /\ truthy (JFloat infinity) = true
      /\ create_branch "acme" "widget" payload "t0k"
           (mkWorld phrases_3_11 [] [] [infinite; created])
         = (Raise InvalidJSONError,
            mkWorld phrases_3_11 ["t0k"; "t0k"]
              [get_ref_call "acme" "widget" payload "t0k";
               post_ref_call "acme" "widget" payload "t0k" (JFloat infinity)]
              [created])).
Proof.
  cbv zeta. repeat split; try reflexivity;
    eexists _, _; repeat split; reflexivity.
Qed.

(** C1 (amended): when the first upstream call is sent and answered with a
    status below 400 and a body that contains [object.sha = S] with [S]
    truthy (any non-empty string is) and fit for JSON (no float inside it
    that is not finite), the handler makes exactly one more call, the POST
    to /repos/{owner}/{repo}/git/refs with the body
    {ref: "refs/heads/<new_branch>", sha: S}, that call is sent, and its
    outcome is the outcome of the handler. *)
Theorem create_branch_posts_resolved_sha
    owner repo payload token (w : World) r1 rest S :
  no_line_break token = true ->
  inbox w = r1 :: rest ->
  status_code r1 < 400 ->
  object_sha (json_body r1) S ->
  truthy S = true ->
  serialisable S = true ->
  let run := create_branch owner repo payload token w in
  calls (snd run)
  = (calls w ++ [get_ref_call owner repo payload token;
                 post_ref_call owner repo payload token S])%list
  /\ refused (post_ref_call owner repo payload token S) = None
  /\ run
     = gh_request "POST" ("/repos/" ++ owner ++ "/" ++ repo ++ "/git/refs")
         token
         (Some (JDict [("ref", JStr ("refs/heads/" ++ new_branch payload));
                       ("sha", S)]))
         None (after_call w token (get_ref_call owner repo payload token))
  /\ fst run
     = match rest with
       | [] => Raise ConnectionError
       | r2 :: _ => gh_response (http_phrase w) r2
       end.
Proof.
  intros Htoken Hin Hst HS Htruthy Hfit run. subst run.
  assert (Hpost : refused (post_ref_call owner repo payload token S) = None).
  { unfold post_ref_call. apply sent_with_body; [assumption |].
    simpl. now rewrite Hfit. }
  rewrite (create_branch_truthy_sha _ _ _ _ w r1 rest S
             Htoken Hin Hst HS Htruthy).
  split; [| split; [exact Hpost | split]].
  - rewrite gh_request_calls. unfold after_call. simpl calls.
    rewrite <- app_assoc. reflexivity.
  - reflexivity.
  - rewrite gh_request_run. cbn [fst]. unfold call_outcome.
    fold (post_ref_call owner repo payload token S). rewrite Hpost.
    unfold upstream_outcome, after_call. cbn [inbox http_phrase].
    rewrite (sent_get_ref owner repo payload token Htoken), Hin.
    reflexivity.
Qed.

Lemma create_branch_posts_resolved_sha_witness :
  let payload := mkCreateBranchPayload "feature-x" (Some "main") in
  let base := JDict [("ref", JStr "refs/heads/main");
                     ("object", JDict [("sha", JStr "abc123")])] in
  let new := JDict [("ref", JStr "refs/heads/feature-x")] in
  let run := create_branch "acme" "widget" payload "t0k"
               (mkWorld phrases_3_11 [] [] [mkResponse 200 "" (Some base);
                                            mkResponse 201 "" (Some new)]) in
  calls (snd run)
  = [get_ref_call "acme" "widget" payload "t0k";
     post_ref_call "acme" "widget" payload "t0k" (JStr "abc123")]
  /\ fst run = Return new.
Proof.
  intros payload base new run.
  assert (Hsha : object_sha (Some base) (JStr "abc123")).
  { eexists _, _. repeat split; reflexivity. }
  destruct (create_branch_posts_resolved_sha "acme" "widget" payload "t0k"
              (mkWorld phrases_3_11 [] [] [mkResponse 200 "" (Some base);
                                           mkResponse 201 "" (Some new)])
              (mkResponse 200 "" (Some base)) [mkResponse 201 "" (Some new)]
              (JStr "abc123") eq_refl eq_refl ltac:(simpl; lia) Hsha
              eq_refl eq_refl)
    as (Hcalls & _ & _ & Hres).
  split; [exact Hcalls | exact Hres].
Defined.

(** C2, as the claim words it, fails at a first response without
    [object.sha] that is an upstream error: for the 404 of a base branch that
    does not exist the handler raises that 404, not its own 500.  (At a
    successful response whose [object] is [null] the handler raises
    neither: the [.get] on [None] raises.) *)
Lemma create_branch_missing_base_branch :
  let payload := mkCreateBranchPayload "feature-x" (Some "nope") in
  let not_found := JDict [("message", JStr "Not Found")] in
  let denied :=
    mkResponse 404 ("{" ++ quoted "message" ++ ":" ++ quoted "Not Found" ++ "}")
      (Some not_found) in
  let null_object :=
    mkResponse 200 ("{" ++ quoted "object" ++ ":null}")
      (Some (JDict [("object", JNull)])) in
  let sent := mkWorld phrases_3_11 ["t0k"]
                [get_ref_call "acme" "widget" payload "t0k"] [] in
  (lacks_object_sha (json_body denied)
   /\ create_branch "acme" "widget" payload "t0k"
        (mkWorld phrases_3_11 [] [] [denied])
      = (Raise (HTTPException 404 not_found), sent))
  /\ create_branch "acme" "widget" payload "t0k"
       (mkWorld phrases_3_11 [] [] [null_object])
     = (Raise (AttributeError "get"), sent).
Proof.
  cbv zeta. split; [split |]; try reflexivity.
  right. eexists. split; [reflexivity |]. left. reflexivity.
Qed.

(** C2 (amended): when the first upstream call is sent and answered with a
    status below 400 and a body that is not JSON, or is a JSON object without
    [object], or one whose [object] is a JSON object without [sha], the
    handler sends no second call and raises HTTP 500 with the message
    "Could not resolve base branch SHA"; and whatever the upstream API
    answers, a second call is made only after a first response with a
    status below 400 that carries a truthy [object.sha]. *)
Theorem create_branch_without_sha owner repo payload token (w : World) :
  (forall r1 rest,
      no_line_break token = true ->
      inbox w = r1 :: rest ->
      status_code r1 < 400 ->
      lacks_object_sha (json_body r1) ->
      create_branch owner repo payload token w
      = (Raise (HTTPException 500 (JStr "Could not resolve base branch SHA")),
         after_call w token (get_ref_call owner repo payload token)))
  /\ (calls (snd (create_branch owner repo payload token w))
      = (calls w ++ [get_ref_call owner repo payload token])%list
      \/ exists r1 rest S,
           inbox w = r1 :: rest
           /\ status_code r1 < 400
           /\ object_sha (json_body r1) S
           /\ truthy S = true
           /\ calls (snd (create_branch owner repo payload token w))
              = (calls w ++ [get_ref_call owner repo payload token;
                             post_ref_call owner repo payload token S])%list).
Proof.
  split.
  - intros r1 rest. apply create_branch_lacking_sha.
  - apply create_branch_second_call_guard.
Qed.

Lemma create_branch_without_sha_witness :
  let payload := mkCreateBranchPayload "feature-x" (Some "main") in
  let base := JDict [("ref", JStr "refs/heads/main")] in
  let w := mkWorld phrases_3_11 [] [] [mkResponse 200 "" (Some base);
                                       mkResponse 201 "" (Some (JDict []))] in
  create_branch "acme" "widget" payload "t0k" w
  = (Raise (HTTPException 500 (JStr "Could not resolve base branch SHA")),
     mkWorld phrases_3_11 ["t0k"] [get_ref_call "acme" "widget" payload "t0k"]
       [mkResponse 201 "" (Some (JDict []))]).
Proof.
  intros payload base w.
  apply (proj1 (create_branch_without_sha "acme" "widget" payload "t0k" w)
           (mkResponse 200 "" (Some base))
           [mkResponse 201 "" (Some (JDict []))] eq_refl eq_refl).
  - simpl. lia.
  - right. exists [("ref", JStr "refs/heads/main")].
    split; [reflexivity |]. left. reflexivity.
Defined.

(** C9, as the claim words it, fails at a first response that is an upstream
    error: a 404 whose body has an empty [object.sha] is raised as that 404,
    not as the handler's own 500. *)
Lemma create_branch_empty_sha_in_error :
  let payload := mkCreateBranchPayload "feature-x" (Some "main") in
  let body := JDict [("object", JDict [("sha", JStr "")])] in
  let denied :=
    mkResponse 404
      ("{" ++ quoted "object" ++ ":{" ++ quoted "sha" ++ ":" ++ quoted "" ++ "}}")
      (Some body) in
  object_sha (json_body denied) (JStr "")
  /\ create_branch "acme" "widget" payload "t0k"
       (mkWorld phrases_3_11 [] [] [denied])
     = (Raise (HTTPException 404 body),
        mkWorld phrases_3_11 ["t0k"]
          [get_ref_call "acme" "widget" payload "t0k"] []).
Proof.
  cbv zeta. split; [| reflexivity].
  eexists _, _. repeat split; reflexivity.
Qed.

(** C9 (amended): when the first upstream call is sent and answered with a
    status below 400 and a body in which [object.sha] is the empty string,
    or any other falsy value, or in which [object] is an empty object, the
    handler does what it does when the SHA is absent: it raises HTTP 500
    with the message "Could not resolve base branch SHA" and sends no second
    call. *)
Theorem create_branch_falsy_sha_as_absent
    owner repo payload token (w : World) r1 rest :
  no_line_break token = true ->
  inbox w = r1 :: rest ->
  status_code r1 < 400 ->
  let stopped :=
    (Raise (HTTPException 500 (JStr "Could not resolve base branch SHA")),
     after_call w token (get_ref_call owner repo payload token)) in
  (object_sha (json_body r1) (JStr "") ->
   create_branch owner repo payload token w = stopped)
  /\ ((exists d, json_body r1 = Some (JDict d)
                 /\ lookup d "object" = Some (JDict [])) ->
      create_branch owner repo payload token w = stopped)
  /\ (forall S, object_sha (json_body r1) S -> truthy S = false ->
      create_branch owner repo payload token w = stopped).
Proof.
  intros Htoken Hin Hst stopped. subst stopped.
  split; [| split].
  - intros HS.
    apply (create_branch_falsy_sha _ _ _ _ w r1 rest (JStr "")
             Htoken Hin Hst HS).
    reflexivity.
  - intros (d & Hbody & Hobj).
    apply (create_branch_lacking_sha _ _ _ _ w r1 rest Htoken Hin Hst).
    right. exists d. split; [assumption |]. right. now exists [].
  - intros S HS Hfalsy.
    apply (create_branch_falsy_sha _ _ _ _ w r1 rest S
             Htoken Hin Hst HS Hfalsy).
Qed.

Lemma create_branch_falsy_sha_as_absent_witness :
  let payload := mkCreateBranchPayload "feature-x" (Some "main") in
  let created := mkResponse 201 "{}" (Some (JDict [])) in
  let empty_sha :=
    mkResponse 200 "" (Some (JDict [("object", JDict [("sha", JStr "")])])) in
  let empty_object :=
    mkResponse 200 "" (Some (JDict [("object", JDict [])])) in
  let stopped :=
    (Raise (HTTPException 500 (JStr "Could not resolve base branch SHA")),
     mkWorld phrases_3_11 ["t0k"] [get_ref_call "acme" "widget" payload "t0k"]
       [created]) in
  create_branch "acme" "widget" payload "t0k"
    (mkWorld phrases_3_11 [] [] [empty_sha; created]) = stopped
  /\ create_branch "acme" "widget" payload "t0k"
       (mkWorld phrases_3_11 [] [] [empty_object; created]) = stopped.
Proof.
  intros payload created empty_sha empty_object stopped.
  split.
  - apply (proj1 (create_branch_falsy_sha_as_absent "acme" "widget" payload
                    "t0k" (mkWorld phrases_3_11 [] [] [empty_sha; created])
                    empty_sha [created] eq_refl eq_refl ltac:(simpl; lia))).
    eexists _, _. repeat split; reflexivity.
  - apply (proj1 (proj2 (create_branch_falsy_sha_as_absent "acme" "widget"
                    payload "t0k"
                    (mkWorld phrases_3_11 [] [] [empty_object; created])
                    empty_object [created] eq_refl eq_refl
                    ltac:(simpl; lia)))).
    eexists. split; reflexivity.
Defined.

(** ** Single-call handlers *)

(** C7: the empty payload [{}] is the [MergePrPayload] with every default,
    and with it [merge_pr] sends one call: a PUT to
    /repos/{owner}/{repo}/pulls/{pr_number}/merge whose JSON body is
    {commit_title: null, commit_message: null, merge_method: "merge"}. *)
Theorem merge_pr_default_payload owner repo pr_number token (w : World) :
  exists payload,
    MergePrPayload_of_json (JDict []) = Some payload
    /\ calls (snd (merge_pr owner repo pr_number payload token w))
       = (calls w
          ++ [mkCall "PUT"
                (GITHUB_API_BASE ++ "/repos/" ++ owner ++ "/" ++ repo
                 ++ "/pulls/" ++ str_of_int pr_number ++ "/merge")
                (gh_headers token)
                (Some (JDict [("commit_title", JNull);
                              ("commit_message", JNull);
                              ("merge_method", JStr "merge")]))
                None])%list.
Proof.
  exists (mkMergePrPayload None None (Some "merge")).
  split; [reflexivity |].
  unfold merge_pr. rewrite gh_request_calls. reflexivity.
Qed.

(** C8: without a [ref] query parameter [get_contents] sends its GET with
    no query parameters at all; with a non-empty [ref] it sends the GET with
    the one query parameter {ref: <value>}. *)
Theorem get_contents_ref_parameter owner repo path token (w : World) :
  calls (snd (get_contents owner repo path None token w))
  = (calls w
     ++ [mkCall "GET"
           (GITHUB_API_BASE ++ "/repos/" ++ owner ++ "/" ++ repo
            ++ "/contents/" ++ path)
           (gh_headers token) None None])%list
  /\ (forall ref, ref <> "" ->
        calls (snd (get_contents owner repo path (Some ref) token w))
        = (calls w
           ++ [mkCall "GET"
                 (GITHUB_API_BASE ++ "/repos/" ++ owner ++ "/" ++ repo
                  ++ "/contents/" ++ path)
                 (gh_headers token) None (Some [("ref", ref)])])%list).
Proof.
  split.
  - unfold get_contents. rewrite gh_request_calls. reflexivity.
  - intros ref Href. unfold get_contents.
    apply truthy_str_true in Href. rewrite Href.
    rewrite gh_request_calls. reflexivity.
Qed.

Lemma get_contents_ref_parameter_witness :
  calls (snd (get_contents "acme" "widget" "src/main.py" (Some "dev") "t0k"
                (mkWorld phrases_3_11 [] [] [])))
  = [mkCall "GET" "https://api.github.com/repos/acme/widget/contents/src/main.py"
       [("Authorization", "Bearer t0k");
        ("Accept", "application/vnd.github.v3+json")]
       None (Some [("ref", "dev")])].
Proof.
  apply (proj2 (get_contents_ref_parameter "acme" "widget" "src/main.py" "t0k"
                  (mkWorld phrases_3_11 [] [] [])) "dev").
  discriminate.
Defined.

(** C10: an empty [ref] query value is handled as no [ref] at all: the
    handler does the same in both cases, and its GET carries no query
    parameters. *)
Theorem get_contents_empty_ref owner repo path token (w : World) :
  get_contents owner repo path (Some "") token w
  = get_contents owner repo path None token w
  /\ calls (snd (get_contents owner repo path (Some "") token w))
     = (calls w
        ++ [mkCall "GET"
              (GITHUB_API_BASE ++ "/repos/" ++ owner ++ "/" ++ repo
               ++ "/contents/" ++ path)
              (gh_headers token) None None])%list.
Proof.
  split; [reflexivity |].
  unfold get_contents. simpl truthy_str. cbv iota.
  rewrite gh_request_calls. reflexivity.
Qed.

(** * Further properties of the code *)

(** ** What [split] yields *)

Lemma no_space_app (a b : string) :
  no_space (a ++ b) = no_space a && no_space b.
Proof.
  induction a as [|c a IH]; simpl; [reflexivity |].
  now rewrite IH, andb_assoc.
Qed.

(** Every string that [split_from] yields is a token, when the run being
    read has no white space. *)
Lemma split_from_tokens (s cur : string) :
  no_space cur = true -> Forall is_token (split_from cur s).
Proof.
  revert cur. induction s as [|c s IH]; intros cur Hcur; simpl.
  - destruct (String.eqb_spec cur ""); constructor; [| constructor].
    split; assumption.
  - destruct (isspace c) eqn:Hc.
    + destruct (String.eqb_spec cur "").
      * now apply IH.
      * constructor; [split; assumption | now apply IH].
    + apply IH. rewrite no_space_app, Hcur. simpl. now rewrite Hc.
Qed.

Lemma split_tokens (s : string) : Forall is_token (split s).
Proof.
  now apply split_from_tokens.
Qed.

(** Leading white space is skipped. *)
Lemma split_from_skip (ws rest : string) :
  all_space ws = true -> split_from "" (ws ++ rest) = split_from "" rest.
Proof.
  induction ws as [|c ws IH]; intros Hws; simpl in *; [reflexivity |].
  apply andb_prop in Hws. destruct Hws as [Hc Hws].
  rewrite Hc. now apply IH.
Qed.

(** White space ends the token being read. *)
Lemma split_from_cut (cur ws rest : string) :
  cur <> "" -> ws <> "" -> all_space ws = true ->
  split_from cur (ws ++ rest) = cur :: split_from "" rest.
Proof.
  intros Hcur Hne Hws. destruct ws as [|c ws]; [contradiction |].
  simpl in *. apply andb_prop in Hws. destruct Hws as [Hc Hws].
  rewrite Hc. destruct (String.eqb_spec cur ""); [contradiction |].
  f_equal. now apply split_from_skip.
Qed.

(** Trailing white space adds no token. *)
Lemma split_from_tail (cur post : string) :
  cur <> "" -> all_space post = true -> split_from cur post = [cur].
Proof.
  intros Hcur Hpost. destruct post as [|c post].
  - now apply split_from_end.
  - rewrite <- (append_empty_r (String c post)).
    rewrite (split_from_cut cur (String c post) ""); [reflexivity | | |];
      try assumption. discriminate.
Qed.

Lemma split_padded_one (pre x post : string) :
  all_space pre = true -> is_token x -> all_space post = true ->
  split (pre ++ x ++ post) = [x].
Proof.
  intros Hpre [Hx1 Hx2] Hpost. unfold split.
  rewrite (split_from_skip pre _ Hpre), (split_from_run x "" post Hx2).
  now apply split_from_tail.
Qed.

Lemma split_padded_two (pre scheme mid x post : string) :
  all_space pre = true -> is_token scheme ->
  mid <> "" -> all_space mid = true ->
  is_token x -> all_space post = true ->
  split (pre ++ scheme ++ mid ++ x ++ post) = [scheme; x].
Proof.
  intros Hpre [Hs1 Hs2] Hmid1 Hmid2 [Hx1 Hx2] Hpost. unfold split.
  rewrite (split_from_skip pre _ Hpre), (split_from_run scheme "" _ Hs2).
  simpl append at 1.
  rewrite (split_from_cut scheme mid _ Hs1 Hmid1 Hmid2).
  f_equal. rewrite (split_from_run x "" post Hx2).
  now apply split_from_tail.
Qed.

(** ** More on credential resolution *)

(** X1: a credential that [get_token] returns is never the empty string. *)
Theorem get_token_returns_nonempty
    (authorization : option string) (env : environ) (t : string) :
  get_token authorization env = Return t -> t <> "".
Proof.
  unfold get_token.
  assert (Henv : match lookup env "GITHUB_TOKEN" with
                 | Some token =>
                     if truthy_str token then Return token
                     else Raise (HTTPException 401 (JStr NO_TOKEN_DETAIL))
                 | None => Raise (HTTPException 401 (JStr NO_TOKEN_DETAIL))
                 end = Return t -> t <> "").
  { destruct (lookup env "GITHUB_TOKEN") as [token |]; [| discriminate].
    destruct (truthy_str token) eqn:Htok; [| discriminate].
    intros [= <-]. now apply truthy_str_true. }
  destruct authorization as [a |]; [| exact Henv].
  destruct (truthy_str a) eqn:Ha; [| exact Henv].
  apply truthy_str_true in Ha.
  pose proof (split_tokens a) as Htokens.
  destruct (split a) as [|p0 [|p1 [|p2 ps]]]; try (intros [= <-]; exact Ha).
  destruct (String.eqb (lower p0) "bearer"); intros [= <-]; [| exact Ha].
  inversion Htokens as [|? ? _ Hrest]. inversion Hrest as [|? ? [Hp1 _] _].
  exact Hp1.
Qed.

Lemma get_token_returns_nonempty_witness :
  get_token (Some "Bearer ghp_16C7e42F") [] = Return "ghp_16C7e42F"
  /\ "ghp_16C7e42F" <> "".
Proof.
  split; [reflexivity |].
  apply (get_token_returns_nonempty (Some "Bearer ghp_16C7e42F") []).
  reflexivity.
Defined.

(** X2: [get_token] raises exactly when neither channel gives a non-empty
    value: the header is absent or empty and [GITHUB_TOKEN] is absent or
    empty; and what it raises then is always the same HTTP 401. *)
Theorem get_token_raises_iff (authorization : option string) (env : environ) :
  ((exists e, get_token authorization env = Raise e)
   <-> (authorization = None \/ authorization = Some "")
       /\ (lookup env "GITHUB_TOKEN" = None
           \/ lookup env "GITHUB_TOKEN" = Some ""))
  /\ (forall e, get_token authorization env = Raise e ->
        e = HTTPException 401 (JStr NO_TOKEN_DETAIL)).
Proof.
  unfold get_token.
  destruct authorization as [a |].
  - destruct (String.eqb_spec a "") as [-> | Ha].
    + simpl truthy_str. cbv iota.
      destruct (lookup env "GITHUB_TOKEN") as [token |].
      * destruct (String.eqb_spec token "") as [-> | Htok].
        -- simpl. split; [| now intros e [= <-]].
           split; [intros _; split; now right | intros _; eexists; reflexivity].
        -- apply truthy_str_true in Htok as Htok'. rewrite Htok'.
           split; [| discriminate].
           split; [intros (e & He); discriminate |].
           intros (_ & [H | H]); [discriminate | congruence].
      * split; [| now intros e [= <-]].
        split; [intros _; split; [now right | now left]
               | intros _; eexists; reflexivity].
    + apply truthy_str_true in Ha as Ha'. rewrite Ha'.
      assert (Hret : exists t,
                 match split a with
                 | [p0; p1] => if String.eqb (lower p0) "bearer"
                               then Return p1 else Return a
                 | _ => Return a
                 end = Return t).
      { destruct (split a) as [|p0 [|p1 [|p2 ps]]]; try (now eexists).
        destruct (String.eqb (lower p0) "bearer"); now eexists. }
      destruct Hret as (t & ->).
      split; [| discriminate].
      split; [intros (e & He); discriminate |].
      intros ([H | H] & _); [discriminate | congruence].
  - destruct (lookup env "GITHUB_TOKEN") as [token |].
    + destruct (String.eqb_spec token "") as [-> | Htok].
      * simpl. split; [| now intros e [= <-]].
        split; [intros _; split; [now left | now right]
               | intros _; eexists; reflexivity].
      * apply truthy_str_true in Htok as Htok'. rewrite Htok'.
        split; [| discriminate].
        split; [intros (e & He); discriminate |].
        intros (_ & [H | H]); [discriminate | congruence].
    + split; [| now intros e [= <-]].
      split; [intros _; split; now left | intros _; eexists; reflexivity].
Qed.

(** X3: a non-empty header decides alone: [get_token] returns, and what it
    returns does not depend on the environment. *)
Theorem get_token_header_precedence (a : string) (env env' : environ) :
  a <> "" ->
  get_token (Some a) env = get_token (Some a) env'
  /\ exists t, get_token (Some a) env = Return t.
Proof.
  intros Ha. unfold get_token.
  apply truthy_str_true in Ha. rewrite Ha.
  split; [reflexivity |].
  destruct (split a) as [|p0 [|p1 [|p2 ps]]]; try (now eexists).
  destruct (String.eqb (lower p0) "bearer"); now eexists.
Qed.

Lemma get_token_header_precedence_witness :
  get_token (Some "Bearer abc") [("GITHUB_TOKEN", "from-env")]
  = get_token (Some "Bearer abc") []
  /\ exists t, get_token (Some "Bearer abc") [("GITHUB_TOKEN", "from-env")]
               = Return t.
Proof.
  apply (get_token_header_precedence "Bearer abc"
           [("GITHUB_TOKEN", "from-env")] []).
  discriminate.
Defined.

(** X4: white space around the scheme and the token of a Bearer header does
    not matter: with any white space before, between (at least one
    character) and after them, the credential is the bare token. *)
Theorem get_token_padded_bearer
    (pre scheme mid x post : string) (env : environ) :
  all_space pre = true -> is_token scheme ->
  lower scheme = lower "Bearer" ->
  mid <> "" -> all_space mid = true ->
  is_token x -> all_space post = true ->
  get_token (Some (pre ++ scheme ++ mid ++ x ++ post)) env = Return x.
Proof.
  intros Hpre Hs Hlow Hmid1 Hmid2 Hx Hpost.
  rewrite (get_token_two_parts _ scheme x env).
  - rewrite Hlow. reflexivity.
  - now apply split_padded_two.
Qed.

Lemma get_token_padded_bearer_witness :
  get_token (Some (" " ++ "BEARER" ++ "   " ++ "ghp_16C7e42F" ++ " ")) []
  = Return "ghp_16C7e42F".
Proof.
  apply (get_token_padded_bearer " " "BEARER" "   " "ghp_16C7e42F" " " []);
    try reflexivity; try discriminate; split; try reflexivity; discriminate.
Defined.

(** X5: a header of one token is returned with the white space around it:
    the raw form is not trimmed. *)
Theorem get_token_padded_raw (pre x post : string) (env : environ) :
  all_space pre = true -> is_token x -> all_space post = true ->
  get_token (Some (pre ++ x ++ post)) env = Return (pre ++ x ++ post).
Proof.
  intros Hpre Hx Hpost. unfold get_token.
  assert (Hne : (pre ++ x ++ post)%string <> "").
  { intros E. apply append_eq_empty in E. destruct E as [_ E].
    apply append_eq_empty in E. destruct Hx as [Hx _]. tauto. }
  apply truthy_str_true in Hne. rewrite Hne.
  now rewrite (split_padded_one pre x post Hpre Hx Hpost).
Qed.

Lemma get_token_padded_raw_witness :
  get_token (Some (" " ++ "ghp_16C7e42F" ++ "  ")) [] = Return " ghp_16C7e42F  ".
Proof.
  apply (get_token_padded_raw " " "ghp_16C7e42F" "  " []);
    try reflexivity. split; [discriminate | reflexivity].
Defined.

(** ** More on the upstream caller *)

Lemma refused_kind (c : Call) (e : exn) :
  refused c = Some e -> e = InvalidHeader \/ e = InvalidJSONError.
Proof.
  unfold refused.
  destruct (negb (forallb (fun h => header_value_ok (snd h)) (c_headers c))).
  - intros [= <-]. now left.
  - destruct (c_json c) as [j |]; [| discriminate].
    destruct (serialisable j); [discriminate |]. intros [= <-]. now right.
Qed.

(** What [gh_request] reads off an answer, by outcome. *)
Lemma upstream_outcome_cases (w : World) :
  (forall j,
      upstream_outcome w = Return j ->
      exists r rest,
        inbox w = r :: rest /\ status_code r < 400
        /\ (json_body r = Some j
            \/ json_body r = None /\ j = JDict [("status", JStr "ok")]))
  /\ (forall s detail,
        upstream_outcome w = Raise (HTTPException s detail) ->
        exists r rest,
          inbox w = r :: rest /\ s = status_code r /\ 400 <= s
          /\ (json_body r = Some detail /\ detail <> JNull
              \/ json_body r = Some JNull
                 /\ (exists p, http_phrase w s = Some p /\ detail = JStr p)
              \/ json_body r = None
                 /\ detail = JDict [("message", JStr (text r))])).
Proof.
  unfold upstream_outcome.
  destruct (inbox w) as [|r rest]; [split; discriminate |].
  unfold gh_response, raise_HTTPException.
  destruct (Z.leb_spec 400 (status_code r)) as [Hst | Hst].
  - split.
    + intros j H. exfalso.
      destruct (json_body r) as [[| b | n | f | s | l | d] |];
        try discriminate.
      destruct (http_phrase w (status_code r)); discriminate.
    + intros s detail H. exists r, rest.
      destruct (json_body r) as [[| b | n | f | x | l | d] |] eqn:Hbody;
        try (injection H as <- <-; repeat split; try assumption;
             first [ left; split; [reflexivity | discriminate]
                   | right; right; split; reflexivity ]).
      destruct (http_phrase w (status_code r)) as [p |] eqn:Hp;
        [| discriminate].
      injection H as <- <-. repeat split; try assumption.
      right; left. split; [reflexivity |]. now exists p.
  - split; [| intros s detail H; destruct (json_body r); discriminate].
    intros j H. exists r, rest.
    repeat split; try assumption.
    destruct (json_body r) as [j' |]; injection H as <-;
      [now left | right; now split].
Qed.

(** X6: when [gh_request] returns, the request was sent and answered with a
    status below 400, and the value is the JSON body or [{"status": "ok"}];
    when it raises an [HTTPException], the request was sent and answered,
    the exception has the status of the answer, which is 400 or more, and
    its detail is the JSON body when that is not [null], the phrase of the
    status code when the body is [null], and [{"message": text}] when the
    body is not JSON. *)
Theorem gh_request_outcomes method path token body params (w : World) :
  let c := gh_call method path token body params in
  (forall j,
      fst (gh_request method path token body params w) = Return j ->
      refused c = None
      /\ exists r rest,
           inbox w = r :: rest /\ status_code r < 400
           /\ (json_body r = Some j
               \/ json_body r = None /\ j = JDict [("status", JStr "ok")]))
  /\ (forall s detail,
        fst (gh_request method path token body params w)
        = Raise (HTTPException s detail) ->
        refused c = None
        /\ exists r rest,
             inbox w = r :: rest /\ s = status_code r /\ 400 <= s
             /\ (json_body r = Some detail /\ detail <> JNull
                 \/ json_body r = Some JNull
                    /\ (exists p, http_phrase w s = Some p /\ detail = JStr p)
                 \/ json_body r = None
                    /\ detail = JDict [("message", JStr (text r))])).
Proof.
  intros c. subst c. rewrite gh_request_run. cbn [fst]. unfold call_outcome.
  destruct (refused (gh_call method path token body params)) as [e |] eqn:He.
  - apply refused_kind in He.
    split; [discriminate |]. destruct He as [-> | ->]; discriminate.
  - destruct (upstream_outcome_cases w) as [Hret Hraise].
    split; [intros j H | intros s detail H]; (split; [reflexivity |]).
    + now apply Hret.
    + now apply Hraise.
Qed.

Lemma gh_request_outcomes_witness :
  let w := mkWorld phrases_3_11 [] []
             [mkResponse 404 "null" (Some JNull)] in
  refused (gh_call "GET" "/repos/acme/widget/branches" "t0k" None None) = None
  /\ exists r rest,
       inbox w = r :: rest /\ 404 = status_code r /\ 400 <= 404
       /\ (json_body r = Some (JStr "Not Found") /\ JStr "Not Found" <> JNull
           \/ json_body r = Some JNull
              /\ (exists p, http_phrase w 404 = Some p
                            /\ JStr "Not Found" = JStr p)
           \/ json_body r = None
              /\ JStr "Not Found" = JDict [("message", JStr (text r))]).
Proof.
  intros w.
  apply (proj2 (gh_request_outcomes "GET" "/repos/acme/widget/branches" "t0k"
                  None None w) 404 (JStr "Not Found")).
  reflexivity.
Defined.

(** ** More on branch creation *)

(** X8: when the first upstream call of [create_branch] is sent and answered
    with a status of 400 or more, the handler stops there, with no second
    call, and raises what [gh_request] raises for that answer: the
    [HTTPException] with the same status and the JSON body when that is not
    [null], with [{"message": text}] when the body is not JSON, with the
    phrase of the status code when the body is [null], and a [ValueError]
    when the body is [null] and the code has no phrase. *)
Theorem create_branch_first_step_error
    owner repo payload token (w : World) r1 rest :
  no_line_break token = true ->
  inbox w = r1 :: rest ->
  400 <= status_code r1 ->
  let stop e :=
    create_branch owner repo payload token w
    = (Raise e, after_call w token (get_ref_call owner repo payload token)) in
  (forall j, json_body r1 = Some j -> j <> JNull ->
     stop (HTTPException (status_code r1) j))
  /\ (json_body r1 = None ->
      stop (HTTPException (status_code r1)
              (JDict [("message", JStr (text r1))])))
  /\ (forall p, json_body r1 = Some JNull ->
        http_phrase w (status_code r1) = Some p ->
        stop (HTTPException (status_code r1) (JStr p)))
  /\ (json_body r1 = Some JNull ->
      http_phrase w (status_code r1) = None ->
      stop ValueError).
Proof.
  intros Htoken Hin Hst stop. subst stop. cbv beta.
  assert (Hrun : forall e,
             gh_response (http_phrase w) r1 = Raise e ->
             create_branch owner repo payload token w
             = (Raise e,
                after_call w token (get_ref_call owner repo payload token))).
  { intros e He. rewrite create_branch_run. cbv zeta.
    rewrite (call_outcome_answered w _ r1 rest
               (sent_get_ref owner repo payload token Htoken) Hin), He.
    reflexivity. }
  destruct (gh_response_error_detail (http_phrase w) r1 Hst) as [Hjson Htext].
  repeat split.
  - intros j Hj Hnull. apply Hrun. now apply Hjson.
  - intros Hnone. apply Hrun. now apply Htext.
  - intros p Hbody Hp. apply Hrun. unfold gh_response, raise_HTTPException.
    destruct (Z.leb_spec 400 (status_code r1)); [| lia].
    now rewrite Hbody, Hp.
  - intros Hbody Hp. apply Hrun. unfold gh_response, raise_HTTPException.
    destruct (Z.leb_spec 400 (status_code r1)); [| lia].
    now rewrite Hbody, Hp.
Qed.

Lemma create_branch_first_step_error_witness :
  let payload := mkCreateBranchPayload "feature-x" (Some "main") in
  let denied := JDict [("message", JStr "Bad credentials")] in
  create_branch "acme" "widget" payload "t0k"
    (mkWorld phrases_3_11 [] [] [mkResponse 401 "" (Some denied);
                                 mkResponse 201 "" (Some (JDict []))])
  = (Raise (HTTPException 401 denied),
     mkWorld phrases_3_11 ["t0k"] [get_ref_call "acme" "widget" payload "t0k"]
       [mkResponse 201 "" (Some (JDict []))]).
Proof.
  intros payload denied.
  apply (proj1 (create_branch_first_step_error "acme" "widget" payload "t0k"
                  (mkWorld phrases_3_11 [] []
                     [mkResponse 401 "" (Some denied);
                      mkResponse 201 "" (Some (JDict []))])
                  (mkResponse 401 "" (Some denied))
                  [mkResponse 201 "" (Some (JDict []))]
                  eq_refl eq_refl ltac:(simpl; lia))
           denied eq_refl).
  discriminate.
Defined.

(** X9: when the first call is sent and succeeds with a JSON body that is
    not an object, or with an object whose [object] member is present and is
    not an object, [create_branch] raises neither its own 500 nor an
    upstream error: the [.get] raises an [AttributeError]; no second call is
    sent. *)
Theorem create_branch_attribute_error
    owner repo payload token (w : World) r1 rest j :
  no_line_break token = true ->
  inbox w = r1 :: rest ->
  status_code r1 < 400 ->
  json_body r1 = Some j ->
  (is_dict j = false
   \/ exists d o, j = JDict d /\ lookup d "object" = Some o
                  /\ is_dict o = false) ->
  create_branch owner repo payload token w
  = (Raise (AttributeError "get"),
     after_call w token (get_ref_call owner repo payload token)).
Proof.
  intros Htoken Hin Hst Hbody Hshape.
  rewrite create_branch_run. cbv zeta.
  rewrite (first_call_success _ _ _ _ w r1 rest Htoken Hin Hst), Hbody.
  destruct Hshape as [Hj | (d & o & -> & Hobj & Ho)].
  - destruct j; try discriminate; reflexivity.
  - known_get Hobj. destruct o; try discriminate; reflexivity.
Qed.

Lemma create_branch_attribute_error_witness :
  let payload := mkCreateBranchPayload "feature-x" (Some "main") in
  let sent := mkWorld phrases_3_11 ["t0k"]
                [get_ref_call "acme" "widget" payload "t0k"] [] in
  create_branch "acme" "widget" payload "t0k"
    (mkWorld phrases_3_11 [] [] [mkResponse 200 "[]" (Some (JList []))])
  = (Raise (AttributeError "get"), sent)
  /\ create_branch "acme" "widget" payload "t0k"
       (mkWorld phrases_3_11 [] []
          [mkResponse 200 "" (Some (JDict [("object", JStr "abc123")]))])
     = (Raise (AttributeError "get"), sent).
Proof.
  intros payload sent. split.
  - apply (create_branch_attribute_error "acme" "widget" payload "t0k"
             (mkWorld phrases_3_11 [] []
                [mkResponse 200 "[]" (Some (JList []))])
             (mkResponse 200 "[]" (Some (JList []))) [] (JList [])
             eq_refl eq_refl ltac:(simpl; lia) eq_refl).
    left. reflexivity.
  - apply (create_branch_attribute_error "acme" "widget" payload "t0k"
             (mkWorld phrases_3_11 [] []
                [mkResponse 200 ""
                   (Some (JDict [("object", JStr "abc123")]))])
             (mkResponse 200 "" (Some (JDict [("object", JStr "abc123")])))
             [] (JDict [("object", JStr "abc123")])
             eq_refl eq_refl ltac:(simpl; lia) eq_refl).
    right. eexists _, _. repeat split; reflexivity.
Defined.

(** X20: when the first call is sent and succeeds with a truthy [object.sha]
    that is not fit for JSON (a float that is not finite, or a value holding
    one), [create_branch] makes the second call, the HTTP client refuses it
    before anything is sent, the handler raises that refusal, and the
    response the upstream API had for a second request is left unused. *)
Theorem create_branch_unencodable_sha
    owner repo payload token (w : World) r1 rest S :
  no_line_break token = true ->
  inbox w = r1 :: rest ->
  status_code r1 < 400 ->
  object_sha (json_body r1) S ->
  truthy S = true ->
  serialisable S = false ->
  create_branch owner repo payload token w
  = (Raise InvalidJSONError,
     mkWorld (http_phrase w) (stdout w ++ [token; token])
       (calls w ++ [get_ref_call owner repo payload token;
                    post_ref_call owner repo payload token S])
       rest).
Proof.
  intros Htoken Hin Hst HS Htruthy Hfit.
  rewrite (create_branch_truthy_sha _ _ _ _ w r1 rest S
             Htoken Hin Hst HS Htruthy).
  rewrite gh_request_run.
  fold (post_ref_call owner repo payload token S).
  assert (Hpost : refused (post_ref_call owner repo payload token S)
                  = Some InvalidJSONError).
  { unfold post_ref_call. rewrite refused_gh_call, Htoken.
    cbn [serialisable forallb snd]. now rewrite Hfit. }
  unfold call_outcome, after_call. rewrite Hpost.
  rewrite (sent_get_ref owner repo payload token Htoken), Hin.
  cbn [http_phrase stdout calls inbox tl]. rewrite <- !app_assoc.
  reflexivity.
Qed.

Lemma create_branch_unencodable_sha_witness :
  let payload := mkCreateBranchPayload "feature-x" (Some "main") in
  let base := JDict [("object", JDict [("sha", JFloat nan)])] in
  let created := mkResponse 201 "{}" (Some (JDict [])) in
  create_branch "acme" "widget" payload "t0k"
    (mkWorld phrases_3_11 [] [] [mkResponse 200 "" (Some base); created])
  = (Raise InvalidJSONError,
     mkWorld phrases_3_11 ["t0k"; "t0k"]
       [get_ref_call "acme" "widget" payload "t0k";
        post_ref_call "acme" "widget" payload "t0k" (JFloat nan)]
       [created]).
Proof.
  intros payload base created.
  assert (Hsha : object_sha (Some base) (JFloat nan)).
  { eexists _, _. repeat split; reflexivity. }
  exact (create_branch_unencodable_sha "acme" "widget" payload "t0k"
           (mkWorld phrases_3_11 [] [] [mkResponse 200 "" (Some base); created])
           (mkResponse 200 "" (Some base)) [created] (JFloat nan)
           eq_refl eq_refl ltac:(simpl; lia) Hsha eq_refl eq_refl).
Defined.

(** ** More on the single-call handlers *)

(** What an [Optional[str]] field sends upstream: the value of the request
    when the key is there, the default when it is not. *)
Lemma field_opt_str_sent (d : dict) (key : string) (default o : option string) :
  field_opt_str d key default = Some o ->
  of_opt_str o = match lookup d key with
                 | Some v => v
                 | None => of_opt_str default
                 end.
Proof.
  unfold field_opt_str.
  destruct (lookup d key) as [[| b | n | f | s | l | d'] |];
    intros [= <-]; reflexivity.
Qed.



(** X11: [review_pr] never sends a [null] review body: an absent body and
    an empty one both go upstream as the empty string, any other as it is. *)
Theorem review_pr_body_is_text
    owner repo pr_number payload token (w : World) :
  (let c :=
     gh_call "POST"
       ("/repos/" ++ owner ++ "/" ++ repo ++ "/pulls/"
        ++ str_of_int pr_number ++ "/reviews")
       token
       (Some (JDict [("body", JStr match review_body payload with
                                   | Some s => s
                                   | None => ""
                                   end);
                     ("event", of_opt_str (review_event payload))]))
       None in
   review_pr owner repo pr_number payload token w
   = (call_outcome w c, after_call w token c))
  /\ review_pr owner repo pr_number
       (mkReviewPrPayload None (review_event payload)) token w
     = review_pr owner repo pr_number
         (mkReviewPrPayload (Some "") (review_event payload)) token w.
Proof.
  split; [| reflexivity].
  cbv zeta. unfold review_pr. rewrite gh_request_run.
  destruct (review_body payload) as [s |]; [| reflexivity].
  destruct (String.eqb_spec s "") as [-> | Hs]; [reflexivity |].
  apply truthy_str_true in Hs. rewrite Hs. reflexivity.
Qed.

(** X12: whatever [ref] is, [get_contents] sends one GET whose query
    parameters are either none at all or the single parameter [ref] with the
    non-empty value given: an empty [ref] never goes upstream. *)
Theorem get_contents_never_empty_ref
    owner repo path (ref : option string) token (w : World) :
  exists params,
    (let c :=
       gh_call "GET"
         ("/repos/" ++ owner ++ "/" ++ repo ++ "/contents/" ++ path)
         token None params in
     get_contents owner repo path ref token w
     = (call_outcome w c, after_call w token c))
    /\ (params = None /\ (ref = None \/ ref = Some "")
        \/ exists r, r <> "" /\ ref = Some r /\ params = Some [("ref", r)]).
Proof.
  unfold get_contents. destruct ref as [r |].
  - destruct (String.eqb_spec r "") as [-> | Hr].
    + exists None. rewrite gh_request_run. split; [reflexivity |].
      left. split; [reflexivity | now right].
    + exists (Some [("ref", r)]). rewrite gh_request_run.
      apply truthy_str_true in Hr as Hr'. rewrite Hr'.
      split; [reflexivity |]. right. exists r. repeat split. assumption.
  - exists None. rewrite gh_request_run. split; [reflexivity |].
    left. split; [reflexivity | now left].
Qed.

(** X13: every handler writes the caller's credential to standard output,
    once for each upstream call it sends: once in the single-call handlers,
    once or twice in [create_branch]. *)
Theorem handlers_print_token owner repo token (w : World) :
  stdout (snd (list_branches owner repo token w)) = (stdout w ++ [token])%list
  /\ (forall state,
        stdout (snd (list_prs owner repo state token w))
        = (stdout w ++ [token])%list)
  /\ (forall payload,
        stdout (snd (create_pr owner repo payload token w))
        = (stdout w ++ [token])%list)
  /\ (forall n,
        stdout (snd (get_pr owner repo n token w)) = (stdout w ++ [token])%list)
  /\ (forall n payload,
        stdout (snd (review_pr owner repo n payload token w))
        = (stdout w ++ [token])%list)
  /\ (forall n payload,
        stdout (snd (merge_pr owner repo n payload token w))
        = (stdout w ++ [token])%list)
  /\ (forall path ref,
        stdout (snd (get_contents owner repo path ref token w))
        = (stdout w ++ [token])%list)
  /\ (forall payload,
        let w' := snd (create_branch owner repo payload token w) in
        stdout w' = (stdout w ++ [token])%list
        /\ calls w'
           = (calls w ++ [get_ref_call owner repo payload token])%list
        \/ stdout w' = (stdout w ++ [token; token])%list
           /\ exists S,
                calls w'
                = (calls w ++ [get_ref_call owner repo payload token;
                               post_ref_call owner repo payload token S])%list).
Proof.
  repeat split; intros;
    try (unfold list_branches, list_prs, create_pr, get_pr, review_pr,
           merge_pr, get_contents;
         rewrite gh_request_run; reflexivity).
  subst w'. rewrite create_branch_run. cbv zeta.
  destruct (call_outcome w (get_ref_call owner repo payload token))
    as [base_ref | e]; [| left; split; reflexivity].
  destruct (py_get base_ref "object" (JDict [])) as [obj | e];
    [| left; split; reflexivity].
  destruct (py_get obj "sha" JNull) as [sha | e]; [| left; split; reflexivity].
  destruct (truthy sha); simpl negb; cbv iota; [| left; split; reflexivity].
  right. rewrite gh_request_run. cbn [snd]. unfold after_call.
  cbn [stdout calls]. rewrite <- !app_assoc. split; [reflexivity |].
  exists sha. reflexivity.
Qed.

(** ** Pull request numbers in the upstream path *)

Lemma str_of_int_inj (n m : Z) : str_of_int n = str_of_int m -> n = m.
Proof.
  unfold str_of_int. intros H.
  assert (Hnil : forall z, Z.to_int z <> Decimal.Pos Decimal.Nil
                           /\ Z.to_int z <> Decimal.Neg Decimal.Nil).
  { intros [| p | p]; simpl; split; try discriminate;
      intros [= E]; now apply (DecimalPos.Unsigned.to_uint_nonnil p). }
  apply (f_equal NilZero.int_of_string) in H.
  destruct (Hnil n) as [Hn1 Hn2]. destruct (Hnil m) as [Hm1 Hm2].
  rewrite !NilZero.isi in H by assumption.
  injection H as H. apply (f_equal Z.of_int) in H.
  now rewrite !DecimalZ.of_to in H.
Qed.

Lemma append_inj_l (a x y : string) : (a ++ x = a ++ y)%string -> x = y.
Proof.
  induction a as [|c a IH]; simpl; [easy |].
  intros [= H]. now apply IH.
Qed.

Lemma length_append (a b : string) :
  String.length (a ++ b) = (String.length a + String.length b)%nat.
Proof.
  induction a as [|c a IH]; simpl; [reflexivity | now rewrite IH].
Qed.

Lemma append_inj_r (x y b : string) : (x ++ b = y ++ b)%string -> x = y.
Proof.
  revert y. induction x as [|c x IH]; intros [|d y] H; simpl in H.
  - reflexivity.
  - apply (f_equal String.length) in H. simpl in H.
    rewrite length_append in H. lia.
  - apply (f_equal String.length) in H. simpl in H.
    rewrite length_append in H. lia.
  - injection H as -> H. f_equal. now apply IH.
Qed.

Lemma last_call_inj (l : list Call) (c c' : Call) :
  (l ++ [c])%list = (l ++ [c'])%list -> c = c'.
Proof.
  intros H. apply app_inv_head in H. now injection H.
Qed.

(** X14: the pull request number can be read back from the upstream call:
    [get_pr], [review_pr] and [merge_pr] called for two numbers send the
    same call only when the numbers are equal (a negative number or zero
    included). *)
Theorem pr_number_determines_call
    owner repo token (n m : Z) (w : World) :
  (calls (snd (get_pr owner repo n token w))
   = calls (snd (get_pr owner repo m token w)) -> n = m)
  /\ (forall payload,
        calls (snd (review_pr owner repo n payload token w))
        = calls (snd (review_pr owner repo m payload token w)) -> n = m)
  /\ (forall payload,
        calls (snd (merge_pr owner repo n payload token w))
        = calls (snd (merge_pr owner repo m payload token w)) -> n = m).
Proof.
  repeat split; intros;
    match goal with H : calls _ = calls _ |- _ =>
      unfold get_pr, review_pr, merge_pr in H;
      rewrite !gh_request_calls in H;
      apply last_call_inj in H;
      apply (f_equal c_url) in H; unfold gh_call in H; cbn [c_url] in H;
      do 6 apply append_inj_l in H
    end.
  - now apply str_of_int_inj.
  - apply append_inj_r in H. now apply str_of_int_inj.
  - apply append_inj_r in H. now apply str_of_int_inj.
Qed.

Lemma pr_number_determines_call_witness :
  (7 <> 8)%Z
  /\ calls (snd (get_pr "acme" "widget" 7 "t0k" (mkWorld phrases_3_11 [] [] [])))
     <> calls (snd (get_pr "acme" "widget" 8 "t0k" (mkWorld phrases_3_11 [] [] []))).
Proof.
  split; [discriminate |].
  intros H.
  apply (proj1 (pr_number_determines_call "acme" "widget" "t0k" 7 8
                  (mkWorld phrases_3_11 [] [] []))) in H.
  discriminate H.
Defined.

(** ** Routes: the credential, then the handler *)

Lemma get_token_no_channel (authorization : option string) (env : environ) :
  authorization = None \/ authorization = Some "" ->
  lookup env "GITHUB_TOKEN" = None \/ lookup env "GITHUB_TOKEN" = Some "" ->
  get_token authorization env
  = Raise (HTTPException 401 (JStr NO_TOKEN_DETAIL)).
Proof.
  intros [-> | ->] [Henv | Henv]; unfold get_token; simpl;
    rewrite Henv; reflexivity.
Qed.

(** X15: a request with no usable credential never reaches the upstream
    API: with the header absent or empty and [GITHUB_TOKEN] absent or empty,
    every route raises the 401 and leaves the world as it was: no call is
    sent, nothing is printed, no response is used up. *)
Theorem with_token_unauthenticated
    (authorization : option string) (env : environ)
    (handler : string -> M json) (w : World) :
  authorization = None \/ authorization = Some "" ->
  lookup env "GITHUB_TOKEN" = None \/ lookup env "GITHUB_TOKEN" = Some "" ->
  with_token authorization env handler w
  = (Raise (HTTPException 401
              (JStr "GitHub token not provided via Authorization header or GITHUB_TOKEN env var")),
     w).
Proof.
  intros Hauth Henv. unfold with_token, bind, lift.
  rewrite (get_token_no_channel authorization env Hauth Henv). reflexivity.
Qed.

Lemma with_token_unauthenticated_witness :
  let w := mkWorld phrases_3_11 [] [] [mkResponse 200 "[]" (Some (JList []))] in
  with_token None [("HOME", "/root")] (list_branches "acme" "widget") w
  = (Raise (HTTPException 401
              (JStr "GitHub token not provided via Authorization header or GITHUB_TOKEN env var")),
     w).
Proof.
  intros w.
  apply (with_token_unauthenticated None [("HOME", "/root")]
           (list_branches "acme" "widget") w).
  - left. reflexivity.
  - left. reflexivity.
Defined.

(** X16: the scheme of the inbound header is normalised on the way up: for
    an inbound header made of a scheme equal to "Bearer" when case is
    ignored, white space, and a token [x], every route runs its handler with
    [x], so the upstream call carries exactly "Authorization: Bearer x". *)
Theorem with_token_normalises_bearer
    (pre scheme mid x post : string) (env : environ) (w : World) :
  all_space pre = true -> is_token scheme ->
  lower scheme = lower "Bearer" ->
  mid <> "" -> all_space mid = true ->
  is_token x -> all_space post = true ->
  let inbound := Some (pre ++ scheme ++ mid ++ x ++ post) in
  (forall handler, with_token inbound env handler w = handler x w)
  /\ (forall method path body params,
        exists c,
          calls (snd (with_token inbound env
                        (fun token => gh_request method path token body params)
                        w))
          = (calls w ++ [c])%list
          /\ lookup (c_headers c) "Authorization" = Some ("Bearer " ++ x)).
Proof.
  intros Hpre Hs Hlow Hmid1 Hmid2 Hx Hpost inbound. subst inbound.
  assert (Htoken : get_token (Some (pre ++ scheme ++ mid ++ x ++ post)) env
                   = Return x).
  { rewrite (get_token_two_parts _ scheme x env).
    - rewrite Hlow. reflexivity.
    - now apply split_padded_two. }
  assert (Hroute : forall handler,
             with_token (Some (pre ++ scheme ++ mid ++ x ++ post)) env handler w
             = handler x w).
  { intros handler. unfold with_token, bind, lift. now rewrite Htoken. }
  split; [exact Hroute |].
  intros method path body params.
  rewrite Hroute, gh_request_calls.
  eexists. split; reflexivity.
Qed.

Lemma with_token_normalises_bearer_witness :
  let w := mkWorld phrases_3_11 [] [] [mkResponse 200 "[]" (Some (JList []))] in
  with_token (Some ("" ++ "bearer" ++ "  " ++ "ghp_16C7e42F" ++ ""))
    [] (list_branches "acme" "widget") w
  = list_branches "acme" "widget" "ghp_16C7e42F" w.
Proof.
  intros w.
  assert (Hscheme : is_token "bearer") by (split; [discriminate | reflexivity]).
  assert (Hx : is_token "ghp_16C7e42F") by (split; [discriminate | reflexivity]).
  assert (Hmid : "  " <> "") by discriminate.
  pose proof (with_token_normalises_bearer "" "bearer" "  " "ghp_16C7e42F" ""
                [] w eq_refl Hscheme eq_refl Hmid eq_refl Hx eq_refl) as H.
  exact (proj1 H (list_branches "acme" "widget")).
Defined.

(** ** Request bodies: defaults and what goes upstream *)

(** X17: [merge_pr] forwards the fields of an accepted request body as they
    came: no value of [merge_method] is checked or replaced, an explicit
    [null] goes upstream as [null], and the default "merge" stands in only
    for a missing key. *)
Theorem merge_pr_forwards_fields
    owner repo pr_number token (w : World) (d : dict) payload :
  MergePrPayload_of_json (JDict d) = Some payload ->
  let c :=
    gh_call "PUT"
      ("/repos/" ++ owner ++ "/" ++ repo ++ "/pulls/"
       ++ str_of_int pr_number ++ "/merge")
      token
      (Some (JDict [("commit_title",
                     match lookup d "commit_title" with
                     | Some v => v
                     | None => JNull
                     end);
                    ("commit_message",
                     match lookup d "commit_message" with
                     | Some v => v
                     | None => JNull
                     end);
                    ("merge_method",
                     match lookup d "merge_method" with
                     | Some v => v
                     | None => JStr "merge"
                     end)]))
      None in
  merge_pr owner repo pr_number payload token w
  = (call_outcome w c, after_call w token c).
Proof.
  unfold MergePrPayload_of_json.
  destruct (field_opt_str d "commit_title" None) as [t |] eqn:Ht;
    [| discriminate].
  destruct (field_opt_str d "commit_message" None) as [m |] eqn:Hm;
    [| discriminate].
  destruct (field_opt_str d "merge_method" (Some "merge")) as [mm |] eqn:Hmm;
    [| discriminate].
  intros [= <-]. cbv zeta. unfold merge_pr. rewrite gh_request_run.
  cbn [commit_title commit_message merge_method].
  rewrite (field_opt_str_sent _ _ _ _ Ht), (field_opt_str_sent _ _ _ _ Hm),
    (field_opt_str_sent _ _ _ _ Hmm).
  reflexivity.
Qed.

Lemma merge_pr_forwards_fields_witness :
  calls (snd (merge_pr "acme" "widget" 7
                (mkMergePrPayload None None (Some "fast-forward")) "t0k"
                (mkWorld phrases_3_11 [] [] [mkResponse 405 "" None])))
  = [gh_call "PUT" "/repos/acme/widget/pulls/7/merge" "t0k"
       (Some (JDict [("commit_title", JNull); ("commit_message", JNull);
                     ("merge_method", JStr "fast-forward")]))
       None].
Proof.
  rewrite (merge_pr_forwards_fields "acme" "widget" 7 "t0k"
             (mkWorld phrases_3_11 [] [] [mkResponse 405 "" None])
             [("merge_method", JStr "fast-forward"); ("commit_title", JNull)]
             (mkMergePrPayload None None (Some "fast-forward")) eq_refl).
  reflexivity.
Defined.

(** X18: [review_pr] on an accepted request body: [event] goes upstream as
    it came, "COMMENT" standing in only for a missing key (an explicit
    [null] stays [null]); [body] goes upstream as the string it was, and as
    the empty string when missing or [null]. *)
Theorem review_pr_forwards_fields
    owner repo pr_number token (w : World) (d : dict) payload :
  ReviewPrPayload_of_json (JDict d) = Some payload ->
  let c :=
    gh_call "POST"
      ("/repos/" ++ owner ++ "/" ++ repo ++ "/pulls/"
       ++ str_of_int pr_number ++ "/reviews")
      token
      (Some (JDict [("body",
                     match lookup d "body" with
                     | Some (JStr s) => JStr s
                     | _ => JStr ""
                     end);
                    ("event",
                     match lookup d "event" with
                     | Some v => v
                     | None => JStr "COMMENT"
                     end)]))
      None in
  review_pr owner repo pr_number payload token w
  = (call_outcome w c, after_call w token c).
Proof.
  unfold ReviewPrPayload_of_json.
  destruct (field_opt_str d "body" None) as [b |] eqn:Hb; [| discriminate].
  destruct (field_opt_str d "event" (Some "COMMENT")) as [e |] eqn:He;
    [| discriminate].
  intros [= <-]. cbv zeta. unfold review_pr. rewrite gh_request_run.
  cbn [review_body review_event].
  rewrite (field_opt_str_sent _ _ _ _ He).
  unfold field_opt_str in Hb.
  destruct (lookup d "body") as [[| x | n | f | s | l | d'] |];
    try discriminate; injection Hb as <-; try reflexivity.
  destruct (String.eqb_spec s "") as [-> | Hs]; [reflexivity |].
  apply truthy_str_true in Hs. rewrite Hs. reflexivity.
Qed.

Lemma review_pr_forwards_fields_witness :
  calls (snd (review_pr "acme" "widget" 7 (mkReviewPrPayload None (Some "COMMENT"))
                "t0k" (mkWorld phrases_3_11 [] [] [])))
  = [gh_call "POST" "/repos/acme/widget/pulls/7/reviews" "t0k"
       (Some (JDict [("body", JStr ""); ("event", JStr "COMMENT")])) None].
Proof.
  rewrite (review_pr_forwards_fields "acme" "widget" 7 "t0k"
             (mkWorld phrases_3_11 [] [] []) [] (mkReviewPrPayload None (Some "COMMENT"))
             eq_refl).
  reflexivity.
Defined.

(** X19: the base branch [create_branch] asks the upstream API for, on an
    accepted request body: the string given; "main" when the key is missing;
    and, when the key is given as [null], a branch named "None".  The call
    for it is always the first the handler sends. *)
Theorem create_branch_base_of_body
    owner repo token (w : World) (d : dict) payload :
  CreateBranchPayload_of_json (JDict d) = Some payload ->
  exists later,
    calls (snd (create_branch owner repo payload token w))
    = (calls w
       ++ gh_call "GET"
            ("/repos/" ++ owner ++ "/" ++ repo ++ "/git/ref/heads/"
             ++ match lookup d "base_branch" with
                | None => "main"
                | Some (JStr s) => s
                | Some _ => "None"
                end)
            token None None
       :: later)%list.
Proof.
  unfold CreateBranchPayload_of_json.
  destruct (field_str d "new_branch") as [nb |]; [| discriminate].
  destruct (field_opt_str d "base_branch" (Some "main")) as [bb |] eqn:Hbb;
    [| discriminate].
  intros [= <-].
  assert (Hpath : format_opt_str bb
                  = match lookup d "base_branch" with
                    | None => "main"
                    | Some (JStr s) => s
                    | Some _ => "None"
                    end).
  { unfold field_opt_str in Hbb.
    destruct (lookup d "base_branch") as [[| x | n | f | s | l | d'] |];
      try discriminate; injection Hbb as <-; reflexivity. }
  rewrite <- Hpath.
  destruct (create_branch_second_call_guard owner repo
              (mkCreateBranchPayload nb bb) token w)
    as [Hone | (r1 & rest & S & _ & _ & _ & _ & Htwo)].
  - exists []. exact Hone.
  - eexists. exact Htwo.
Qed.

Lemma create_branch_base_of_body_witness :
  exists later,
    calls (snd (create_branch "acme" "widget"
                  (mkCreateBranchPayload "feature-x" None) "t0k"
                  (mkWorld phrases_3_11 [] [] [mkResponse 404 "" None])))
    = gh_call "GET" "/repos/acme/widget/git/ref/heads/None" "t0k" None None
      :: later.
Proof.
  exact (create_branch_base_of_body "acme" "widget" "t0k"
           (mkWorld phrases_3_11 [] [] [mkResponse 404 "" None])
           [("new_branch", JStr "feature-x"); ("base_branch", JNull)]
           (mkCreateBranchPayload "feature-x" None) eq_refl).
Defined.
